(** * pybadges: the badge-assembly pipeline of [pybadges/__init__.py]

    A shallow embedding of [badge], [_embed_image], [_fetch_remote_image],
    [_fetch_local_image_and_mime], [_remove_blanks] and the colour table
    [_NAME_TO_COLOR], with the properties the specification states about
    them.

    Conventions.
    - A Python [str] is a [string]; [bytes] is a [list byte].
    - [Optional[str]] is [option string]; Python truthiness of such a value
      is [truthy] (neither [None] nor the empty string).
    - A Python [float] is a primitive binary64 [float].
    - Exceptions are values of [exn]; a computation that can raise returns
      a [result].
    - The network, the file system and the third-party libraries
      ([requests], [filetype], [mimetypes], [urllib.parse], [jinja2],
      [xml.dom.minidom]'s parser and serialiser) are the fields of the
      class [Env]: every theorem holds for every implementation of them. *)

From Stdlib Require Import ZArith NArith Strings.Ascii Strings.String Strings.Byte List Lia PrimFloat.
From stdpp Require Import base option list strings gmap.

Local Open Scope Z_scope.

(** ** Python built-ins used by the module *)

Module Py.

(** [bool(s)] for a [str]. *)
Definition nonempty (s : string) : bool :=
  match s with
  | EmptyString => false
  | String _ _ => true
  end.

(** [bool(o)] for an [Optional[str]]. *)
Definition truthy (o : option string) : bool :=
  match o with
  | Some s => nonempty s
  | None => false
  end.

(** [s.startswith(p)]. *)
Fixpoint startswith (p s : string) : bool :=
  match p, s with
  | EmptyString, _ => true
  | String a p', String b s' => if Ascii.eqb a b then startswith p' s' else false
  | String _ _, EmptyString => false
  end.

(** The first occurrence of the character [c] cuts [s] in two. *)
Fixpoint partition (c : ascii) (s : string) : option (string * string) :=
  match s with
  | EmptyString => None
  | String a r =>
      if Ascii.eqb a c then Some (EmptyString, r)
      else match partition c r with
           | Some (h, t) => Some (String a h, t)
           | None => None
           end
  end.

(** [s.split(c, 1)] for a one-character separator. *)
Definition split1 (c : ascii) (s : string) : list string :=
  match partition c s with
  | Some (h, t) => [h; t]
  | None => [s]
  end.

(** [c in s] for a one-character [c]. *)
Fixpoint contains_char (c : ascii) (s : string) : bool :=
  match s with
  | EmptyString => false
  | String a r => Ascii.eqb a c || contains_char c r
  end.

(** ASCII lower-casing of one code point. *)
Definition lower_N (n : N) : N :=
  if ((65 <=? n) && (n <=? 90))%N then (n + 32)%N else n.

Definition lower_ascii (a : ascii) : ascii := ascii_of_N (lower_N (N_of_ascii a)).

Definition lower_byte (b : byte) : byte :=
  match Byte.of_N (lower_N (Byte.to_N b)) with
  | Some b' => b'
  | None => b
  end.

(** [s.lower()] on ASCII text. *)
Fixpoint lower (s : string) : string :=
  match s with
  | EmptyString => EmptyString
  | String a r => String (lower_ascii a) (lower r)
  end.

(** [b.lower()] for [bytes]. *)
Definition bytes_lower (b : list byte) : list byte := map lower_byte b.

(** The characters [str.strip()] removes, among the code points below 128:
    tab, line feed, vertical tab, form feed, carriage return, the four
    separators 0x1c-0x1f and the space. *)
Definition isspace (a : ascii) : bool :=
  let n := N_of_ascii a in
  ((9 <=? n) && (n <=? 13) || (28 <=? n) && (n <=? 32))%N.

Fixpoint lstrip (s : string) : string :=
  match s with
  | EmptyString => EmptyString
  | String a r => if isspace a then lstrip r else s
  end.

Fixpoint rstrip (s : string) : string :=
  match s with
  | EmptyString => EmptyString
  | String a r =>
      match rstrip r with
      | EmptyString => if isspace a then EmptyString else String a EmptyString
      | r' => String a r'
      end
  end.

(** [s.strip()]. *)
Definition strip (s : string) : string := rstrip (lstrip s).

(** [needle in hay] for [bytes]. *)
Fixpoint bytes_startswith (p l : list byte) : bool :=
  match p, l with
  | [], _ => true
  | a :: p', b :: l' => if Byte.eqb a b then bytes_startswith p' l' else false
  | _ :: _, [] => false
  end.

Fixpoint bytes_contains (needle hay : list byte) : bool :=
  bytes_startswith needle hay ||
  match hay with
  | [] => false
  | _ :: hay' => bytes_contains needle hay'
  end.

(** The double quote, as a one-character string. *)
Definition dquote : string := String (ascii_of_N 34) EmptyString.

End Py.

(** ** [base64.b64encode] *)

Module Base64.

(** The 64 characters of the standard alphabet, by value. *)
Definition alphabet (n : N) : ascii :=
  ascii_of_N
    (if n <? 26 then n + 65
     else if n <? 52 then n + 71
     else if n <? 62 then n - 4
     else if n =? 62 then 43
     else 47)%N.

Definition pad : ascii := ascii_of_N 61.

Definition sextet (w : N) (k : N) : ascii :=
  alphabet (N.land (N.shiftr w (6 * k)) 63).

(** Three bytes make four characters; a final group of one or two bytes
    is padded with [=]. *)
Fixpoint encode (data : list byte) : string :=
  match data with
  | [] => EmptyString
  | [a] =>
      let w := N.shiftl (Byte.to_N a) 16 in
      String (sextet w 3) (String (sextet w 2) (String pad (String pad EmptyString)))
  | [a; b] =>
      let w := N.lor (N.shiftl (Byte.to_N a) 16) (N.shiftl (Byte.to_N b) 8) in
      String (sextet w 3) (String (sextet w 2) (String (sextet w 1) (String pad EmptyString)))
  | a :: b :: c :: rest =>
      let w := N.lor (N.lor (N.shiftl (Byte.to_N a) 16) (N.shiftl (Byte.to_N b) 8))
                     (Byte.to_N c) in
      String (sextet w 3) (String (sextet w 2) (String (sextet w 1) (String (sextet w 0)
        (encode rest))))
  end.

(** [base64.b64encode(data).decode("ascii")]. *)
Definition b64encode (data : list byte) : string := encode data.

End Base64.

(** ** The colour table *)

(** [_NAME_TO_COLOR] (lines 64-81). *)
Definition _NAME_TO_COLOR : gmap string string :=
  list_to_map
    [ ("brightgreen", "#4c1");
      ("green", "#97CA00");
      ("yellow", "#dfb317");
      ("yellowgreen", "#a4a61d");
      ("orange", "#fe7d37");
      ("red", "#e05d44");
      ("blue", "#007ec6");
      ("grey", "#555");
      ("gray", "#555");
      ("lightgrey", "#9f9f9f");
      ("lightgray", "#9f9f9f");
      ("critical", "#e05d44");
      ("important", "#fe7d37");
      ("success", "#4c1");
      ("informational", "#007ec6");
      ("inactive", "#9f9f9f") ].

(** [_NAME_TO_COLOR.get(name, name)], the expression [badge] applies to each
    colour (lines 276, 294, 295). *)
Definition resolve_color (name : string) : string :=
  default name (_NAME_TO_COLOR !! name).

(** ** Exceptions and results *)

(** The exceptions the module raises or lets through. [ValueError] is the
    only one the module raises itself; the others come out of a
    collaborator. *)
Inductive exn : Type :=
  | ValueError (msg : string)
  | HTTPError (status : Z)            (* [resp.raise_for_status()] *)
  | RequestException (detail : string) (* [requests.get] itself *)
  | OSError (detail : string)          (* [open(path, "rb")] and [f.read()] *)
  | ExpatError (detail : string)       (* [minidom.parseString] *)
  | AttributeError (detail : string).  (* attribute access on [None] *)

Inductive result (A : Type) : Type :=
  | Ok (a : A)
  | Raise (e : exn).
Arguments Ok {A} a.
Arguments Raise {A} e.

(** [a, b = l]: unpacking a list into two names. *)
Definition unpack2 (l : list string) : result (string * string) :=
  match l with
  | [a; b] => Ok (a, b)
  | [] => Raise (ValueError "not enough values to unpack (expected 2, got 0)")
  | [_] => Raise (ValueError "not enough values to unpack (expected 2, got 1)")
  | _ => Raise (ValueError "too many values to unpack (expected 2)")
  end.

(** ** Data *)

(** The [TextMeasurer] interface: one operation. *)
Record TextMeasurer : Type := { text_width : string -> float }.

(** The arguments of [badge] (lines 179-201). *)
Record BadgeRequest : Type := {
  left_text : string;
  right_text : option string;
  left_link : option string;
  right_link : option string;
  center_link : option string;
  whole_link : option string;
  logo : option string;
  left_color : string;
  right_color : string;
  center_color : option string;
  measurer : option TextMeasurer;
  left_title : option string;
  right_title : option string;
  center_title : option string;
  whole_title : option string;
  right_image : option string;
  center_image : option string;
  embed_logo : bool;
  embed_right_image : bool;
  embed_center_image : bool;
  id_suffix : string
}.

(** The keyword arguments of [template.render] (lines 284-304). *)
Module Template.
Record Fields : Type := {
  left_text : string;
  right_text : option string;
  left_text_width : float;
  right_text_width : option float;
  left_link : option string;
  right_link : option string;
  whole_link : option string;
  center_link : option string;
  logo : option string;
  left_color : string;
  right_color : string;
  center_color : option string;
  left_title : option string;
  right_title : option string;
  center_title : option string;
  whole_title : option string;
  right_image : option string;
  center_image : option string;
  id_suffix : string
}.
End Template.

(** A [requests.Response]: [headers] is a [CaseInsensitiveDict], which
    stores each entry under its lower-cased name next to the name as it was
    sent. *)
Record Response : Type := {
  status_code : Z;
  headers : gmap string (string * string);
  content : list byte
}.

(** [resp.headers.get(name)]. *)
Definition headers_get (name : string) (resp : Response) : option string :=
  snd <$> (headers resp !! Py.lower name).

(** [resp.raise_for_status()]: client and server errors raise. *)
Definition raise_for_status (resp : Response) : result unit :=
  if (400 <=? status_code resp) && (status_code resp <? 600)
  then Raise (HTTPError (status_code resp))
  else Ok tt.

(** A DOM node of [xml.dom.minidom]. [Other] stands for the node types the
    module never looks into (comments, CDATA sections, processing
    instructions, document types). *)
Inductive Node : Type :=
  | Document (childNodes : list Node)
  | Element (tagName : string) (attributes : list (string * string)) (childNodes : list Node)
  | Text (nodeValue : string)
  | Other (nodeType : Z) (nodeValue : string).

(** What a run does to the outside, in order. [EmbedImage] records a call
    of the image resolver, the other two the I/O it performs. *)
Inductive event : Type :=
  | EmbedImage (url : string)
  | HttpGet (url : string)
  | OpenFile (path : string).

(** ** Collaborators *)

(** Everything the module calls and does not define. [World] is the state
    of the network and of the file system: a request or a read returns a
    new state with its answer, so that two runs need not see the same
    answers. *)
Class Env : Type := {
  World : Type;
  (** [requests.get(url)]: a response, or the detail of the failure. *)
  requests_get : string -> World -> string + Response * World;
  (** [open(path, "rb").read()]. *)
  open_read : string -> World -> string + list byte * World;
  (** [filetype.guess(data)], as the MIME type of the kind found. *)
  filetype_guess : list byte -> option string;
  (** [mimetypes.guess_type(path)[0]]. *)
  mimetypes_guess_type : string -> option string;
  (** [urllib.parse.urlparse(url).scheme]. *)
  urlparse_scheme : string -> string;
  (** [PrecalculatedTextMeasurer.default()]. *)
  default_measurer : TextMeasurer;
  (** [get_template("badge-template-full.svg").render(...)]. *)
  template_render : Template.Fields -> string;
  (** [minidom.parseString(svg)]: a [Document], or the parser's complaint. *)
  parseString : string -> string + Node;
  (** [node.toxml()]. *)
  toxml : Node -> string
}.

(** ** The monad of a run: state, trace and exceptions *)

Record State `{Env} : Type := {
  world : World;
  trace : list event
}.

Definition M `{Env} (A : Type) : Type := State -> result A * State.

Definition ret `{Env} {A} (a : A) : M A := fun s => (Ok a, s).

Definition raise `{Env} {A} (e : exn) : M A := fun s => (Raise e, s).

Definition bind `{Env} {A B} (m : M A) (k : A -> M B) : M B :=
  fun s =>
    match m s with
    | (Ok a, s') => k a s'
    | (Raise e, s') => (Raise e, s')
    end.

Definition lift `{Env} {A} (r : result A) : M A := fun s => (r, s).

Definition emit `{Env} (ev : event) : M unit :=
  fun s => (Ok tt, {| world := world s; trace := trace s ++ [ev] |}).

Notation "'let*' x ':=' m 'in' k" := (bind m (fun x => k))
  (at level 10, x pattern, m at level 100, k at level 200).
Notation "m ';;;' k" := (bind m (fun _ => k))
  (at level 100, k at level 200, right associativity).

(** [requests.get(url)] as a step of a run. *)
Definition do_requests_get `{Env} (url : string) : M Response :=
  emit (HttpGet url) ;;;
  fun s =>
    match requests_get url (world s) with
    | inl detail => (Raise (RequestException detail), s)
    | inr (resp, w) => (Ok resp, {| world := w; trace := trace s |})
    end.

(** [with open(path, "rb") as f: data = f.read()] as a step of a run. *)
Definition do_open_read `{Env} (path : string) : M (list byte) :=
  emit (OpenFile path) ;;;
  fun s =>
    match open_read path (world s) with
    | inl detail => (Raise (OSError detail), s)
    | inr (data, w) => (Ok data, {| world := w; trace := trace s |})
    end.

(** ** The image resolver *)

Definition msg_no_content_type : string :=
  "no " +:+ Py.dquote +:+ "Content-Type" +:+ Py.dquote +:+ " header".

(** [f'expected an image, got "{major}"']. *)
Definition msg_expected_image (major : string) : string :=
  "expected an image, got " +:+ Py.dquote +:+ major +:+ Py.dquote.

(** [f'unsupported scheme "{parsed.scheme}"']. *)
Definition msg_unsupported_scheme (scheme : string) : string :=
  "unsupported scheme " +:+ Py.dquote +:+ scheme +:+ Py.dquote.

Definition msg_undetermined : string := "not able to determine file type".

(** [l[0]] for the list a [split] returns, which is never empty. *)
Definition first (l : list string) : string := default EmptyString (head l).

(** [_fetch_remote_image] (lines 122-138). *)
Definition _fetch_remote_image `{Env} (url : string) : M (list byte * string) :=
  let* resp := do_requests_get url in
  let* _ := lift (raise_for_status resp) in
  let content_type := headers_get "content-type" resp in
  if negb (Py.truthy content_type) then raise (ValueError msg_no_content_type)
  else
    let content_type := default EmptyString content_type in
    let* (major, minor) := lift (unpack2 (Py.split1 "/" content_type)) in
    if negb (String.eqb (Py.lower major) "image")
    then raise (ValueError (msg_expected_image major))
    else ret (content resp, content_type).

(** [_fetch_local_image_and_mime] (lines 141-176). *)
Definition _fetch_local_image_and_mime `{Env} (path : string) : M (list byte * string) :=
  let* data := do_open_read path in
  match filetype_guess data with
  | Some mime =>
      if negb (Py.startswith "image/" mime)
      then
        let major := first (Py.split1 "/" mime) in
        raise (ValueError (msg_expected_image major))
      else ret (data, mime)
  | None =>
      let head := Py.bytes_lower (take 500%nat data) in
      if Py.bytes_contains (list_byte_of_string "<svg") head
      then ret (data, "image/svg+xml")
      else
        let guessed_mime := mimetypes_guess_type path in
        if Py.truthy guessed_mime then
          let guessed_mime := default EmptyString guessed_mime in
          let major := first (Py.split1 "/" guessed_mime) in
          if negb (String.eqb major "image")
          then raise (ValueError (msg_expected_image major))
          else ret (data, guessed_mime)
        else raise (ValueError msg_undetermined)
  end.

(** [_embed_image] (lines 93-119). The first step only records the call. *)
Definition _embed_image `{Env} (url : string) : M string :=
  emit (EmbedImage url) ;;;
  if Py.startswith "data:" url then ret url
  else
    let scheme := urlparse_scheme url in
    let* (image_data, mime) :=
      if String.eqb scheme "http" || String.eqb scheme "https"
      then _fetch_remote_image url
      else if Py.nonempty scheme
      then raise (ValueError (msg_unsupported_scheme scheme))
      else _fetch_local_image_and_mime url in
    let encoded := Base64.b64encode image_data in
    ret ("data:" +:+ mime +:+ ";base64," +:+ encoded).

(** ** The normaliser *)

(** [_remove_blanks] (lines 84-90): the loop over [node.childNodes]. Nodes
    other than documents and elements have no children. *)
Fixpoint _remove_blanks (node : Node) : Node :=
  let visit (x : Node) : Node :=
    match x with
    | Text nodeValue =>
        if Py.nonempty nodeValue then Text (Py.strip nodeValue) else x
    | Element _ _ _ => _remove_blanks x
    | _ => x
    end in
  match node with
  | Document childNodes => Document (map visit childNodes)
  | Element tagName attributes childNodes =>
      Element tagName attributes (map visit childNodes)
  | _ => node
  end.

(** One turn of the loop of minidom's [Node.normalize]: [L] is the list of
    children kept so far. An empty text node is dropped, a text node that
    follows a text node is appended to it, an element is normalised in
    turn. *)
Definition normalize_step (normalize : Node -> Node) (L : list Node) (child : Node)
  : list Node :=
  match child with
  | Text data =>
      if negb (Py.nonempty data) then L
      else match last L with
           | Some (Text data0) => removelast L ++ [Text (data0 +:+ data)]
           | _ => L ++ [child]
           end
  | Element _ _ _ => L ++ [normalize child]
  | _ => L ++ [child]
  end.

(** [node.normalize()] of [xml.dom.minidom]. *)
Fixpoint normalize (node : Node) : Node :=
  match node with
  | Document childNodes =>
      Document (fold_left (normalize_step normalize) childNodes [])
  | Element tagName attributes childNodes =>
      Element tagName attributes (fold_left (normalize_step normalize) childNodes [])
  | _ => node
  end.

(** [xml.documentElement]: the first element among the children. *)
Definition documentElement (xml : Node) : option Node :=
  match xml with
  | Document childNodes =>
      find (fun x => match x with Element _ _ _ => true | _ => false end) childNodes
  | _ => None
  end.

(** Lines 305-308 of [badge]: parse, strip, normalise, serialise. *)
Definition normalize_svg `{Env} (svg : string) : result string :=
  match parseString svg with
  | inl detail => Raise (ExpatError detail)
  | inr xml =>
      let xml := _remove_blanks xml in
      let xml := normalize xml in
      match documentElement xml with
      | Some root => Ok (toxml root)
      | None => Raise (AttributeError "'NoneType' object has no attribute 'toxml'")
      end
  end.

(** ** [badge] *)

Definition msg_whole_link : string :=
  "whole_link may not bet set with left_link, right_link, or center_link".

Definition msg_center_right : string :=
  "cannot have a center_image without a right element".

Definition msg_center_both : string :=
  "must have both a center_image and a center_color".

(** [if image and embed: image = _embed_image(image)] (lines 266-273). *)
Definition embed_if `{Env} (image : option string) (embed : bool) : M (option string) :=
  match image with
  | Some url =>
      if Py.nonempty url && embed
      then let* data := _embed_image url in ret (Some data)
      else ret image
  | None => ret image
  end.

(** The three checks at the head of [badge] (lines 255-264). *)
Definition check_request (req : BadgeRequest) : result unit :=
  if (Py.truthy (left_link req) || Py.truthy (right_link req) || Py.truthy (center_link req))
     && Py.truthy (whole_link req)
  then Raise (ValueError msg_whole_link)
  else if Py.truthy (center_image req)
          && negb (Py.truthy (right_image req) || Py.truthy (right_text req))
  then Raise (ValueError msg_center_right)
  else if (Py.truthy (center_image req) && negb (Py.truthy (center_color req)))
          || (negb (Py.truthy (center_image req)) && Py.truthy (center_color req))
  then Raise (ValueError msg_center_both)
  else Ok tt.

(** [badge] up to the call of [template.render] (lines 252-304): the
    keyword arguments the template receives. *)
Definition badge_fields `{Env} (req : BadgeRequest) : M Template.Fields :=
  let measurer := default default_measurer (measurer req) in
  lift (check_request req) ;;;
  let* logo := embed_if (logo req) (embed_logo req) in
  let* right_image := embed_if (right_image req) (embed_right_image req) in
  let* center_image := embed_if (center_image req) (embed_center_image req) in
  let center_color :=
    if Py.truthy (center_color req)
    then resolve_color <$> center_color req
    else center_color req in
  let right_text_width :=
    if Py.truthy (right_text req)
    then Some (text_width measurer (default EmptyString (right_text req)) / 10)%float
    else None in
  ret {| Template.left_text := left_text req;
         Template.right_text := right_text req;
         Template.left_text_width := (text_width measurer (left_text req) / 10)%float;
         Template.right_text_width := right_text_width;
         Template.left_link := left_link req;
         Template.right_link := right_link req;
         Template.whole_link := whole_link req;
         Template.center_link := center_link req;
         Template.logo := logo;
         Template.left_color := resolve_color (left_color req);
         Template.right_color := resolve_color (right_color req);
         Template.center_color := center_color;
         Template.left_title := left_title req;
         Template.right_title := right_title req;
         Template.center_title := center_title req;
         Template.whole_title := whole_title req;
         Template.right_image := right_image;
         Template.center_image := center_image;
         Template.id_suffix := id_suffix req |}.

(** [badge] (lines 179-308). *)
Definition badge `{Env} (req : BadgeRequest) : M string :=
  let* fields := badge_fields req in
  let svg := template_render fields in
  lift (normalize_svg svg).

(** ** Reasoning about runs *)

(** Every exception [m] raises satisfies [P], and [m] only adds events that
    satisfy [Q] to the trace. *)
Definition confined `{Env} {A} (P : exn -> Prop) (Q : event -> Prop) (m : M A) : Prop :=
  forall st r st', m st = (r, st') ->
    (exists evs, trace st' = trace st ++ evs /\ Forall Q evs) /\
    (forall e, r = Raise e -> P e).

(** ** Running a computation *)

Definition outcome `{Env} {A} (m : M A) (st : State) : result A := (m st).1.

Definition final `{Env} {A} (m : M A) (st : State) : State := (m st).2.

(** The events a run adds to the trace. *)
Definition emitted `{Env} {A} (m : M A) (st : State) : list event :=
  drop (length (trace st)) (trace (final m st)).

(** ** The specification's vocabulary *)

(** The module has one exception class of its own, [ValueError]. The
    specification tells two kinds apart: [InvalidRequestError] is what the
    three checks at the head of [badge] raise, [InvalidImageError] what the
    image resolver raises. *)
Definition InvalidRequestError (e : exn) : Prop :=
  e = ValueError msg_whole_link \/
  e = ValueError msg_center_right \/
  e = ValueError msg_center_both.

Definition InvalidImageError (e : exn) : Prop :=
  exists msg, e = ValueError msg /\ ~ InvalidRequestError e.

(** Any exception but those of the three checks. *)
Definition other_error (e : exn) : Prop := ~ InvalidRequestError e.

(** A field is set when it holds a non-empty string. *)
Definition is_set (o : option string) : bool := Py.truthy o.

(** (a) [whole_link] is set together with one of the three segment links. *)
Definition whole_link_conflict (req : BadgeRequest) : bool :=
  is_set (whole_link req) &&
  (is_set (left_link req) || is_set (right_link req) || is_set (center_link req)).

(** (b) [center_image] is set while [right_image] and [right_text] are both
    absent. *)
Definition center_without_right (req : BadgeRequest) : bool :=
  is_set (center_image req) &&
  (negb (is_set (right_image req)) && negb (is_set (right_text req))).

(** (c) exactly one of [center_image] and [center_color] is set. *)
Definition center_mismatch (req : BadgeRequest) : bool :=
  xorb (is_set (center_image req)) (is_set (center_color req)).

Definition invalid_request (req : BadgeRequest) : bool :=
  whole_link_conflict req || center_without_right req || center_mismatch req.

(** A reference is remote when it is no data URI and its scheme is [http] or
    [https]; it is a local path when it is no data URI and has no scheme. *)
Definition is_remote `{Env} (url : string) : Prop :=
  Py.startswith "data:" url = false /\
  (urlparse_scheme url = "http" \/ urlparse_scheme url = "https").

Definition is_local `{Env} (url : string) : Prop :=
  Py.startswith "data:" url = false /\ urlparse_scheme url = EmptyString.

(** The data URI [_embed_image] builds from what a fetch returned. *)
Definition data_uri (fetched : result (list byte * string)) : result string :=
  match fetched with
  | Ok (image_data, mime) =>
      Ok ("data:" +:+ mime +:+ ";base64," +:+ Base64.b64encode image_data)
  | Raise e => Raise e
  end.

(** The major type of a MIME type: what stands before the first [/]. *)
Definition major_type (mime : string) : string := first (Py.split1 "/" mime).

(** [<svg], in any mix of cases, stands somewhere in the first 500 bytes. *)
Definition svg_in_head (data : list byte) : Prop :=
  exists before marker after,
    take 500%nat data = before ++ marker ++ after /\
    Py.bytes_lower marker = list_byte_of_string "<svg".

(** The state once [ev] has been recorded. *)
Definition record `{Env} (ev : event) (st : State) : State :=
  {| world := world st; trace := trace st ++ [ev] |}.

(** [resp.raise_for_status()] raises for the statuses 400 to 599. *)
Definition error_status (resp : Response) : Prop :=
  400 <= status_code resp < 600.

(** The references the resolver was called on, in order. *)
Definition resolver_calls (evs : list event) : list string :=
  omap (fun ev => match ev with EmbedImage url => Some url | _ => None end) evs.

(** Any event but a call of the resolver on the empty string. *)
Definition nonempty_call (ev : event) : Prop := ev <> EmbedImage EmptyString.

(** All three embed flags are off. *)
Definition no_embedding (req : BadgeRequest) : Prop :=
  embed_logo req = false /\ embed_right_image req = false /\
  embed_center_image req = false.

(** The keyword arguments of [template.render] when nothing is embedded. *)
Definition plain_fields `{Env} (req : BadgeRequest) : Template.Fields :=
  let m := default default_measurer (measurer req) in
  {| Template.left_text := left_text req;
     Template.right_text := right_text req;
     Template.left_text_width := (text_width m (left_text req) / 10)%float;
     Template.right_text_width :=
       if Py.truthy (right_text req)
       then Some (text_width m (default EmptyString (right_text req)) / 10)%float
       else None;
     Template.left_link := left_link req;
     Template.right_link := right_link req;
     Template.whole_link := whole_link req;
     Template.center_link := center_link req;
     Template.logo := logo req;
     Template.left_color := resolve_color (left_color req);
     Template.right_color := resolve_color (right_color req);
     Template.center_color := resolve_color <$> center_color req;
     Template.left_title := left_title req;
     Template.right_title := right_title req;
     Template.center_title := center_title req;
     Template.whole_title := whole_title req;
     Template.right_image := right_image req;
     Template.center_image := center_image req;
     Template.id_suffix := id_suffix req |}.

(** ** Normal forms of the DOM *)

(** What the loop of [_remove_blanks] does to one child. *)
Definition visit (x : Node) : Node :=
  match x with
  | Text nodeValue => if Py.nonempty nodeValue then Text (Py.strip nodeValue) else x
  | Element _ _ _ => _remove_blanks x
  | _ => x
  end.

(** Induction over a node with the hypothesis for all its children. *)
Fixpoint Node_forall_ind (P : Node -> Prop)
    (HDocument : forall childNodes, Forall P childNodes -> P (Document childNodes))
    (HElement : forall tagName attributes childNodes,
        Forall P childNodes -> P (Element tagName attributes childNodes))
    (HText : forall nodeValue, P (Text nodeValue))
    (HOther : forall nodeType nodeValue, P (Other nodeType nodeValue))
    (node : Node) : P node :=
  let fix children (l : list Node) : Forall P l :=
    match l with
    | [] => @List.Forall_nil Node P
    | x :: l' =>
        @List.Forall_cons Node P x l' (Node_forall_ind P HDocument HElement HText HOther x)
          (children l')
    end in
  match node with
  | Document childNodes => HDocument childNodes (children childNodes)
  | Element tagName attributes childNodes =>
      HElement tagName attributes childNodes (children childNodes)
  | Text nodeValue => HText nodeValue
  | Other nodeType nodeValue => HOther nodeType nodeValue
  end.

(** A text with nothing to strip: not empty, no white space at either end. *)
Definition head_ok (s : string) : Prop :=
  match s with
  | EmptyString => True
  | String a _ => Py.isspace a = false
  end.

Definition stripped (s : string) : Prop :=
  s <> EmptyString /\ head_ok s /\ Py.rstrip s = s.

Definition is_text (x : Node) : bool :=
  match x with
  | Text _ => true
  | _ => false
  end.

(** Whether a list of children ends with a text node; [prev] answers for the
    empty list. *)
Definition ends_with_text (prev : bool) (L : list Node) : bool :=
  match last L with
  | Some x => is_text x
  | None => prev
  end.

(** A child is in order after its left neighbour: a text node is stripped
    and does not follow a text node, an element is tidy. *)
Definition child_ok (tidy : Node -> Prop) (prev : bool) (x : Node) : Prop :=
  match x with
  | Text nodeValue => prev = false /\ stripped nodeValue
  | Element _ _ _ => tidy x
  | _ => True
  end.

Definition tidy_children (tidy : Node -> Prop) : bool -> list Node -> Prop :=
  fix go (prev : bool) (l : list Node) : Prop :=
    match l with
    | [] => True
    | x :: l' => child_ok tidy prev x /\ go (is_text x) l'
    end.

(** The nodes the normaliser leaves alone: throughout the tree every text
    node is stripped and no two text nodes are neighbours. *)
Fixpoint tidy (node : Node) : Prop :=
  match node with
  | Document childNodes => tidy_children tidy false childNodes
  | Element _ _ childNodes => tidy_children tidy false childNodes
  | _ => True
  end.

(** A child as [_remove_blanks] leaves it, ready for [normalize]: a text
    node is empty or stripped, the normal form of an element is tidy. *)
Definition visited (x : Node) : Prop :=
  match x with
  | Text nodeValue => nodeValue = EmptyString \/ stripped nodeValue
  | Element _ _ _ => tidy (normalize x)
  | _ => True
  end.

(** Serialising the element and parsing the text gives the element back. *)
Definition reparses `{Env} (root : Node) : Prop :=
  parseString (toxml root) = inr (Document [root]).

(** ** A small closed world

    One implementation of the collaborators, to run the module on concrete
    inputs: a handful of URLs and files, the scheme rule of [urlsplit], two
    magic numbers, three file extensions, a measurer, a template, and a
    parser and serialiser that do as expat and minidom do on a fragment of
    XML: elements, double-quoted attributes, text, the predefined entities,
    decimal character references, and line ends read as line feeds. *)

Module Demo.

Definition png_bytes : list byte := [x89; x50; x4e; x47; x0d; x0a; x1a; x0a; x00].

Definition pdf_bytes : list byte := list_byte_of_string "%PDF-1.7".

Definition svg_bytes : list byte := list_byte_of_string "<?xml version='1.0'?> <SVG width='1'/>".

Definition txt_bytes : list byte := list_byte_of_string "plain words".

Definition response (status : Z) (content_type : option string) (body : list byte)
  : Response :=
  {| status_code := status;
     headers := match content_type with
                | Some v => {[ "content-type" := ("Content-Type", v) ]}
                | None => ∅
                end;
     content := body |}.

Definition web : list (string * Response) :=
  [ ("http://example.com/logo.png", response 200 (Some "image/png") png_bytes);
    ("https://example.com/upper.png", response 200 (Some "Image/PNG") png_bytes);
    ("https://example.com/missing.png", response 404 (Some "text/html") txt_bytes);
    ("http://example.com/page", response 200 (Some "text/plain") txt_bytes);
    ("http://example.com/bare", response 200 (Some "image") png_bytes);
    ("http://example.com/untyped", response 200 None png_bytes) ].

Definition disk : list (string * list byte) :=
  [ ("logo.png", png_bytes);
    ("logo.txt", png_bytes);
    ("manual.png", pdf_bytes);
    ("icon.dat", svg_bytes);
    ("notes.txt", txt_bytes);
    ("notes.png", txt_bytes);
    ("notes.dat", txt_bytes) ].

Definition lookup {A} (key : string) (table : list (string * A)) : option A :=
  snd <$> find (fun entry => String.eqb (fst entry) key) table.

(** The world counts the requests and reads it has served. *)
Definition requests_get (url : string) (w : nat) : string + Response * nat :=
  match lookup url web with
  | Some resp => inr (resp, S w)
  | None => inl "connection refused"
  end.

Definition open_read (path : string) (w : nat) : string + list byte * nat :=
  match lookup path disk with
  | Some data => inr (data, S w)
  | None => inl "No such file or directory"
  end.

Definition filetype_guess (data : list byte) : option string :=
  if Py.bytes_startswith [x89; x50; x4e; x47] data then Some "image/png"
  else if Py.bytes_startswith (list_byte_of_string "%PDF") data then Some "application/pdf"
  else None.

Fixpoint endswith (suffix s : string) : bool :=
  String.eqb suffix s ||
  match s with
  | EmptyString => false
  | String _ r => endswith suffix r
  end.

Definition mimetypes_guess_type (path : string) : option string :=
  if endswith ".png" path then Some "image/png"
  else if endswith ".svg" path then Some "image/svg+xml"
  else if endswith ".txt" path then Some "text/plain"
  else None.

Definition is_alpha (a : ascii) : bool :=
  let n := Py.lower_N (N_of_ascii a) in ((97 <=? n) && (n <=? 122))%N.

Definition scheme_char (a : ascii) : bool :=
  let n := N_of_ascii a in
  is_alpha a || ((48 <=? n) && (n <=? 57))%N || (n =? 43)%N || (n =? 45)%N || (n =? 46)%N.

(** The scheme is what stands before the first colon, lower-cased, when it
    begins with a letter and is made of letters, digits, [+], [-] and [.]. *)
Definition urlparse_scheme (url : string) : string :=
  match Py.partition ":" url with
  | Some (String a r, _) =>
      if is_alpha a && forallb scheme_char (list_ascii_of_string r)
      then Py.lower (String a r)
      else EmptyString
  | _ => EmptyString
  end.

Fixpoint width_of (text : string) : float :=
  match text with
  | EmptyString => 0%float
  | String _ r => (65 + width_of r)%float
  end.

Definition by_length : TextMeasurer := {| text_width := width_of |}.

Definition attribute (name value : string) : string :=
  " " +:+ name +:+ "=" +:+ Py.dquote +:+ value +:+ Py.dquote.

Definition template_render (f : Template.Fields) : string :=
  "<svg" +:+ attribute "id" ("badge" +:+ Template.id_suffix f) +:+ ">
  <rect" +:+ attribute "fill" (Template.left_color f) +:+ "/>
  <text> " +:+ Template.left_text f +:+ " </text>
  <rect" +:+ attribute "fill" (Template.right_color f) +:+ "/>
  <text> " +:+ default EmptyString (Template.right_text f) +:+ " </text>
</svg>".

Fixpoint escape (quotes : bool) (s : string) : string :=
  match s with
  | EmptyString => EmptyString
  | String a r =>
      (if Ascii.eqb a "&" then "&amp;"
       else if Ascii.eqb a "<" then "&lt;"
       else if Ascii.eqb a ">" then "&gt;"
       else if quotes && Ascii.eqb a (ascii_of_N 34) then "&quot;"
       else String a EmptyString) +:+ escape quotes r
  end.

(** The digits at the head of [s] up to a semicolon: the number they spell
    after [acc], and how many characters they take with the semicolon. *)
Fixpoint read_decimal (acc : N) (taken : nat) (s : string) : option (N * nat) :=
  match s with
  | EmptyString => None
  | String a r =>
      let n := N_of_ascii a in
      if Ascii.eqb a ";" then Some (acc, S taken)
      else if ((48 <=? n) && (n <=? 57))%N
      then read_decimal (10 * acc + (n - 48))%N (S taken) r
      else None
  end.

(** [skip] characters of a reference already read are passed over. A
    reference that is not known stays as it is written. *)
Fixpoint unescape_from (skip : nat) (s : string) : string :=
  match s with
  | EmptyString => EmptyString
  | String a r =>
      match skip with
      | S k => unescape_from k r
      | O =>
          if Py.startswith "&amp;" s then String "&" (unescape_from 4 r)
          else if Py.startswith "&lt;" s then String "<" (unescape_from 3 r)
          else if Py.startswith "&gt;" s then String ">" (unescape_from 3 r)
          else if Py.startswith "&quot;" s then String (ascii_of_N 34) (unescape_from 5 r)
          else if Py.startswith "&#" s then
            match read_decimal 0 1 (String.substring 1 (String.length r) r) with
            | Some (code, taken) => String (ascii_of_N code) (unescape_from taken r)
            | None => String a (unescape_from 0 r)
            end
          else String a (unescape_from 0 r)
      end
  end.

Definition unescape (s : string) : string := unescape_from 0 s.

(** [node.toxml()] as minidom writes it, without indentation. *)
Fixpoint toxml (node : Node) : string :=
  match node with
  | Text data => escape false data
  | Element tag attrs children =>
      "<" +:+ tag +:+
      String.concat EmptyString
        (map (fun kv => attribute (fst kv) (escape true (snd kv))) attrs) +:+
      match children with
      | [] => "/>"
      | _ => ">" +:+ String.concat EmptyString (map toxml children) +:+ "</" +:+ tag +:+ ">"
      end
  | Document children => String.concat EmptyString (map toxml children)
  | Other _ data => data
  end.

(** The text before the first [c], and the rest from [c] on. *)
Fixpoint span_until (c : ascii) (s : string) : string * string :=
  match s with
  | EmptyString => (EmptyString, EmptyString)
  | String a r =>
      if Ascii.eqb a c then (EmptyString, s)
      else let (h, t) := span_until c r in (String a h, t)
  end.

(** [name="value"] pairs, separated by spaces. *)
Fixpoint parse_attrs (fuel : nat) (s : string) : option (list (string * string)) :=
  match Py.lstrip s with
  | EmptyString => Some []
  | s' =>
      match fuel with
      | O => None
      | S fuel' =>
          match Py.partition "=" s' with
          | Some (name, String q rest) =>
              if Ascii.eqb q (ascii_of_N 34) then
                match Py.partition (ascii_of_N 34) rest with
                | Some (value, rest') =>
                    cons (name, unescape value) <$> parse_attrs fuel' rest'
                | None => None
                end
              else None
          | _ => None
          end
      end
  end.

(** What stands between [<] and [>]: a name and its attributes. *)
Definition parse_tag (inner : string) : option (string * list (string * string)) :=
  match Py.partition " " inner with
  | Some (name, rest) => pair name <$> parse_attrs (String.length rest) rest
  | None => Some (inner, [])
  end.

(** One pass over the text. [stack] holds the elements that are open, each
    with the children its parent had before it; [cur] holds the children of
    the innermost open element, last first. *)
Fixpoint parse_loop (fuel : nat) (s : string)
    (stack : list (string * list (string * string) * list Node)) (cur : list Node)
  : option (list Node) :=
  match fuel with
  | O => None
  | S fuel' =>
      match s with
      | EmptyString =>
          match stack with
          | [] => Some (rev cur)
          | _ => None
          end
      | String a r =>
          if Py.startswith "</" s then
            match Py.partition ">" (String.substring 2 (String.length s) s), stack with
            | Some (name, rest), (tag, attrs, up) :: stack' =>
                if String.eqb tag name
                then parse_loop fuel' rest stack' (Element tag attrs (rev cur) :: up)
                else None
            | _, _ => None
            end
          else if Ascii.eqb a "<" then
            match Py.partition ">" r with
            | Some (inner, rest) =>
                if endswith "/" inner then
                  match parse_tag (String.substring 0 (String.length inner - 1) inner) with
                  | Some (tag, attrs) =>
                      parse_loop fuel' rest stack (Element tag attrs [] :: cur)
                  | None => None
                  end
                else
                  match parse_tag inner with
                  | Some (tag, attrs) => parse_loop fuel' rest ((tag, attrs, cur) :: stack) []
                  | None => None
                  end
            | None => None
            end
          else
            let (text, rest) := span_until "<" s in
            parse_loop fuel' rest stack (Text (unescape text) :: cur)
      end
  end.

Definition cr : string := String (ascii_of_N 13) EmptyString.

Definition lf : string := String (ascii_of_N 10) EmptyString.

(** A parser reads every line end, [CR LF] or [CR] alone, as [LF]. *)
Fixpoint line_ends (s : string) : string :=
  match s with
  | EmptyString => EmptyString
  | String a r =>
      if Ascii.eqb a (ascii_of_N 13) then
        match r with
        | String b r' =>
            if Ascii.eqb b (ascii_of_N 10) then String b (line_ends r')
            else String (ascii_of_N 10) (line_ends r)
        | EmptyString => String (ascii_of_N 10) EmptyString
        end
      else String a (line_ends r)
  end.

(** A document is one element. *)
Definition parseString (svg : string) : string + Node :=
  let svg := line_ends svg in
  match parse_loop (S (String.length svg)) svg [] [] with
  | Some [Element tag attrs children] => inr (Document [Element tag attrs children])
  | _ => inl "not well-formed"
  end.

Definition env : Env :=
  Build_Env nat requests_get open_read filetype_guess mimetypes_guess_type
    urlparse_scheme by_length template_render parseString toxml.

(** The world before anything has happened. *)
Definition start : @State env := @Build_State env 0%nat [].

(** [badge(left_text="build", right_text="passing", right_color="green")]. *)
Definition build_passing : BadgeRequest :=
  {| left_text := "build"; right_text := Some "passing";
     left_link := None; right_link := None; center_link := None; whole_link := None;
     logo := None; left_color := "#555"; right_color := "green"; center_color := None;
     measurer := None;
     left_title := None; right_title := None; center_title := None; whole_title := None;
     right_image := None; center_image := None;
     embed_logo := false; embed_right_image := false; embed_center_image := false;
     id_suffix := EmptyString |}.

(** The same with an empty [whole_link] and a [left_link]. *)
Definition empty_whole_link : BadgeRequest :=
  {| left_text := "build"; right_text := Some "passing";
     left_link := Some "http://example.com/"; right_link := None; center_link := None;
     whole_link := Some EmptyString;
     logo := Some EmptyString; left_color := "#555"; right_color := "green";
     center_color := None; measurer := None;
     left_title := None; right_title := None; center_title := None; whole_title := None;
     right_image := None; center_image := None;
     embed_logo := true; embed_right_image := false; embed_center_image := false;
     id_suffix := EmptyString |}.

(** A centre image with an empty centre colour. *)
Definition empty_center_color : BadgeRequest :=
  {| left_text := "build"; right_text := Some "passing";
     left_link := None; right_link := None; center_link := None; whole_link := None;
     logo := None; left_color := "#555"; right_color := "green";
     center_color := Some EmptyString; measurer := None;
     left_title := None; right_title := None; center_title := None; whole_title := None;
     right_image := None; center_image := Some "http://example.com/logo.png";
     embed_logo := false; embed_right_image := false; embed_center_image := true;
     id_suffix := EmptyString |}.

(** A whole link and a left link, and a logo to embed. *)
Definition two_links : BadgeRequest :=
  {| left_text := "build"; right_text := None;
     left_link := Some "http://example.com/left"; right_link := None; center_link := None;
     whole_link := Some "http://example.com/";
     logo := Some "http://example.com/logo.png"; left_color := "#555";
     right_color := "#007ec6"; center_color := None; measurer := None;
     left_title := None; right_title := None; center_title := None; whole_title := None;
     right_image := None; center_image := None;
     embed_logo := true; embed_right_image := false; embed_center_image := false;
     id_suffix := EmptyString |}.

(** An empty right text, and a logo to embed. *)
Definition empty_right_text : BadgeRequest :=
  {| left_text := "x"; right_text := Some EmptyString;
     left_link := None; right_link := None; center_link := None; whole_link := None;
     logo := Some "http://example.com/logo.png"; left_color := "Green";
     right_color := "success"; center_color := None; measurer := None;
     left_title := None; right_title := None; center_title := None; whole_title := None;
     right_image := None; center_image := None;
     embed_logo := true; embed_right_image := false; embed_center_image := false;
     id_suffix := "-1" |}.

(** Three images to embed, the second of which is not found. *)
Definition three_images : BadgeRequest :=
  {| left_text := "build"; right_text := Some "passing";
     left_link := None; right_link := None; center_link := None; whole_link := None;
     logo := Some "logo.png"; left_color := "#555"; right_color := "green";
     center_color := Some "blue"; measurer := None;
     left_title := None; right_title := None; center_title := None; whole_title := None;
     right_image := Some "https://example.com/missing.png";
     center_image := Some "icon.dat";
     embed_logo := true; embed_right_image := true; embed_center_image := true;
     id_suffix := EmptyString |}.

(** Two images to embed, one from a file and one from the network, and a
    centre image that is already a data URI. *)
Definition all_embedded : BadgeRequest :=
  {| left_text := "build"; right_text := None;
     left_link := None; right_link := None; center_link := None; whole_link := None;
     logo := Some "logo.txt"; left_color := "#555"; right_color := "green";
     center_color := Some "blue"; measurer := None;
     left_title := None; right_title := None; center_title := None; whole_title := None;
     right_image := Some "http://example.com/logo.png";
     center_image := Some "data:image/gif;base64,R0lGODdh";
     embed_logo := true; embed_right_image := true; embed_center_image := true;
     id_suffix := EmptyString |}.

End Demo.

(** ** Further vocabulary *)

(** Requests and reads, as opposed to calls of the resolver. *)
Definition is_io (ev : event) : bool :=
  match ev with
  | EmbedImage _ => false
  | HttpGet _ | OpenFile _ => true
  end.

(** The reference [badge] hands to the resolver for one image, if any
    (lines 266-273): the image when it is set and its flag is on. *)
Definition wanted (image : option string) (embed : bool) : list string :=
  match image with
  | Some url => if Py.nonempty url && embed then [url] else []
  | None => []
  end.

(** The references [badge] hands to the resolver, in the order of the
    source. *)
Definition wanted_calls (req : BadgeRequest) : list string :=
  wanted (logo req) (embed_logo req)
  ++ wanted (right_image req) (embed_right_image req)
  ++ wanted (center_image req) (embed_center_image req).


(** The elements of a tree, each with its attributes, in document order. *)
Fixpoint elements_of (node : Node) : list (string * list (string * string)) :=
  match node with
  | Document childNodes => flat_map elements_of childNodes
  | Element tagName attributes childNodes =>
      (tagName, attributes) :: flat_map elements_of childNodes
  | _ => []
  end.




(** A run of [m] hands the resolver a prefix of the references [w], all of
    them when it ends well, and makes at most one request or read for each
    call. *)
Definition accounts `{Env} {A} (w : list string) (m : M A) : Prop :=
  forall st r st', m st = (r, st') ->
    exists evs,
      trace st' = trace st ++ evs /\
      resolver_calls evs `prefix_of` w /\
      (forall a, r = Ok a -> resolver_calls evs = w) /\
      (length (List.filter is_io evs) <= length (resolver_calls evs))%nat.



(** * Properties *)

(** ** The built-ins on known values *)

Example b64encode_rfc4648 :
  Base64.b64encode (list_byte_of_string "") = "" /\
  Base64.b64encode (list_byte_of_string "f") = "Zg==" /\
  Base64.b64encode (list_byte_of_string "fo") = "Zm8=" /\
  Base64.b64encode (list_byte_of_string "foo") = "Zm9v" /\
  Base64.b64encode (list_byte_of_string "foobar") = "Zm9vYmFy" /\
  Base64.b64encode [xfb; xff; xbe] = "+/++".
Proof. repeat split. Qed.

Example strip_known :
  Py.strip "  two words
 " = "two words" /\ Py.strip "   " = "" /\ Py.strip "a" = "a".
Proof. repeat split. Qed.

Example split1_known :
  Py.split1 "/" "image/svg+xml" = ["image"; "svg+xml"] /\
  Py.split1 "/" "a/b/c" = ["a"; "b/c"] /\
  Py.split1 "/" "image" = ["image"] /\
  Py.lower "Image/PNG" = "image/png".
Proof. repeat split. Qed.

Example demo_build_passing :
  outcome (@badge Demo.env Demo.build_passing) Demo.start =
    Ok ("<svg id=" +:+ Py.dquote +:+ "badge" +:+ Py.dquote +:+ "><rect fill="
        +:+ Py.dquote +:+ "#555" +:+ Py.dquote +:+ "/><text>build</text><rect fill="
        +:+ Py.dquote +:+ "#97CA00" +:+ Py.dquote +:+ "/><text>passing</text></svg>").
Proof. vm_compute. reflexivity. Qed.

(** ** Runs on concrete inputs *)

Lemma run_value `{Env} {A} (m : M A) (st : State) r w tr :
  outcome m st = r -> world (final m st) = w -> trace (final m st) = tr ->
  m st = (r, {| world := w; trace := tr |}).
Proof.
  unfold outcome, final. destruct (m st) as [r' [w' tr']]. cbn. by intros -> -> ->.
Qed.

(** [evaluate m st H]: the run of [m] from the closed state [st], computed
    part by part, as the equation [H]. *)
Ltac evaluate m st H :=
  let r := eval vm_compute in (outcome m st) in
  let w := eval vm_compute in (world (final m st)) in
  let tr := eval vm_compute in (trace (final m st)) in
  lazymatch type of st with
  | @State ?env =>
      assert (H : m st = (r, @Build_State env w tr))
        by (apply run_value; vm_compute; reflexivity)
  end.

(** ** Rules for [confined] *)

Section Confined.
Context `{Env} (P : exn -> Prop) (Q : event -> Prop).

Lemma confined_ret {A} (a : A) : confined P Q (ret a).
Proof.
  intros st r st' [= <- <-]. split; [|discriminate].
  exists []. by rewrite app_nil_r.
Qed.

Lemma confined_raise {A} (e : exn) : P e -> confined P Q (raise (A:=A) e).
Proof.
  intros HP st r st' [= <- <-]. split; [|by intros e' [= <-]].
  exists []. by rewrite app_nil_r.
Qed.

Lemma confined_lift {A} (r : result A) :
  (forall e, r = Raise e -> P e) -> confined P Q (lift r).
Proof.
  intros HP st r' st' [= <- <-]. split; [|exact HP].
  exists []. by rewrite app_nil_r.
Qed.

Lemma confined_emit (ev : event) : Q ev -> confined P Q (emit ev).
Proof.
  intros HQ st r st' [= <- <-]. split; [|discriminate].
  exists [ev]. split; [reflexivity|]. by constructor.
Qed.

Lemma confined_bind {A B} (m : M A) (k : A -> M B) :
  confined P Q m -> (forall a, confined P Q (k a)) -> confined P Q (bind m k).
Proof.
  intros Hm Hk st r st'. unfold bind.
  destruct (m st) as [[a|e] s1] eqn:Em; destruct (Hm _ _ _ Em) as [(evs & Ht & HQ) HP].
  - intros Ek. destruct (Hk a _ _ _ Ek) as [(evs' & Ht' & HQ') HP'].
    split; [|exact HP']. exists (evs ++ evs'). split.
    + by rewrite Ht', Ht, app_assoc.
    + by apply Forall_app.
  - intros [= <- <-]. split; [by exists evs|]. intros e' [= <-]. by apply HP.
Qed.

Lemma confined_requests_get (url : string) :
  Q (HttpGet url) -> (forall detail, P (RequestException detail)) ->
  confined P Q (do_requests_get url).
Proof.
  intros HQ HP. apply confined_bind; [by apply confined_emit|].
  intros _ st r st'. cbn beta.
  destruct (requests_get url (world st)) as [d|[resp w]]; intros [= <- <-]; cbn.
  - split; [|by intros e [= <-]]. exists []. by rewrite app_nil_r.
  - split; [|discriminate]. exists []. by rewrite app_nil_r.
Qed.

Lemma confined_open_read (path : string) :
  Q (OpenFile path) -> (forall detail, P (OSError detail)) ->
  confined P Q (do_open_read path).
Proof.
  intros HQ HP. apply confined_bind; [by apply confined_emit|].
  intros _ st r st'. cbn beta.
  destruct (open_read path (world st)) as [d|[data w]]; intros [= <- <-]; cbn.
  - split; [|by intros e [= <-]]. exists []. by rewrite app_nil_r.
  - split; [|discriminate]. exists []. by rewrite app_nil_r.
Qed.
End Confined.

(** ** The exceptions of the image resolver are not those of the checks *)

Ltac not_request_error :=
  let H := fresh in
  unfold other_error; cbn; intros [H|[H|H]]; discriminate H.

Lemma other_expected_image major : other_error (ValueError (msg_expected_image major)).
Proof. not_request_error. Qed.

Lemma other_unsupported_scheme scheme :
  other_error (ValueError (msg_unsupported_scheme scheme)).
Proof. not_request_error. Qed.

Lemma other_unpack2 l e : unpack2 l = Raise e -> other_error e.
Proof.
  destruct l as [|a [|b [|c l]]]; cbn; intros [= <-]; not_request_error.
Qed.

Lemma other_raise_for_status resp e : raise_for_status resp = Raise e -> other_error e.
Proof.
  unfold raise_for_status. case_match; intros [= <-]. not_request_error.
Qed.

Lemma other_normalize_svg `{Env} svg e : normalize_svg svg = Raise e -> other_error e.
Proof.
  unfold normalize_svg. repeat case_match; intros [= <-]; not_request_error.
Qed.

Section Resolver.
Context `{Env} (Q : event -> Prop).

Lemma fetch_remote_confined url :
  Q (HttpGet url) -> confined other_error Q (_fetch_remote_image url).
Proof.
  intros HQ. unfold _fetch_remote_image.
  apply confined_bind; [apply confined_requests_get; [done|intros; not_request_error]|].
  intros resp. apply confined_bind; [apply confined_lift, other_raise_for_status|].
  intros _. case_match; [apply confined_raise; not_request_error|].
  apply confined_bind; [apply confined_lift, other_unpack2|].
  intros [major minor]. case_match; [apply confined_raise, other_expected_image|].
  apply confined_ret.
Qed.

Lemma fetch_local_confined path :
  Q (OpenFile path) -> confined other_error Q (_fetch_local_image_and_mime path).
Proof.
  intros HQ. unfold _fetch_local_image_and_mime.
  apply confined_bind; [apply confined_open_read; [done|intros; not_request_error]|].
  intros data. repeat case_match;
    first [apply confined_ret | apply confined_raise, other_expected_image
          | apply confined_raise; not_request_error].
Qed.

Lemma embed_image_confined url :
  Q (EmbedImage url) -> Q (HttpGet url) -> Q (OpenFile url) ->
  confined other_error Q (_embed_image url).
Proof.
  intros Hc Hg Ho. unfold _embed_image.
  apply confined_bind; [by apply confined_emit|].
  intros _. case_match; [apply confined_ret|].
  apply confined_bind.
  - repeat case_match;
      [by apply fetch_remote_confined
      |apply confined_raise, other_unsupported_scheme
      |by apply fetch_local_confined].
  - intros [image_data mime]. apply confined_ret.
Qed.

Lemma embed_if_confined image embed :
  (forall url, image = Some url -> url <> EmptyString ->
     Q (EmbedImage url) /\ Q (HttpGet url) /\ Q (OpenFile url)) ->
  confined other_error Q (embed_if image embed).
Proof.
  intros HQ. unfold embed_if. destruct image as [url|]; [|apply confined_ret].
  case_match; [|apply confined_ret].
  destruct (HQ url eq_refl) as (Hc & Hg & Ho); [by destruct url|].
  apply confined_bind; [by apply embed_image_confined|].
  intros data. apply confined_ret.
Qed.

End Resolver.

(** ** The three checks *)

Lemma check_request_spec req :
  match check_request req with
  | Ok _ => invalid_request req = false
  | Raise e => invalid_request req = true /\ InvalidRequestError e
  end.
Proof.
  unfold check_request, invalid_request, whole_link_conflict, center_without_right,
    center_mismatch, is_set, InvalidRequestError.
  destruct (Py.truthy (left_link req)), (Py.truthy (right_link req)),
    (Py.truthy (center_link req)), (Py.truthy (whole_link req)),
    (Py.truthy (center_image req)), (Py.truthy (right_image req)),
    (Py.truthy (right_text req)), (Py.truthy (center_color req)); cbn; tauto.
Qed.

Lemma badge_fields_invalid `{Env} req st :
  invalid_request req = true ->
  exists e, InvalidRequestError e /\ badge_fields req st = (Raise e, st).
Proof.
  intros Hreq. pose proof (check_request_spec req) as Hc.
  unfold badge_fields, bind, lift. destruct (check_request req) as [[]|e].
  - congruence.
  - exists e. by destruct Hc.
Qed.

Lemma badge_fields_valid_confined `{Env} (Q : event -> Prop) req :
  invalid_request req = false ->
  (forall url, url <> EmptyString -> Q (EmbedImage url) /\ Q (HttpGet url) /\ Q (OpenFile url)) ->
  confined other_error Q (badge_fields req).
Proof.
  intros Hreq HQ. pose proof (check_request_spec req) as Hc. unfold badge_fields.
  apply confined_bind.
  - apply confined_lift. intros e He. rewrite He in Hc. destruct Hc; congruence.
  - intros _. repeat (apply confined_bind; [apply embed_if_confined; auto|intros ?]).
    apply confined_ret.
Qed.

(** C1. [badge] raises [InvalidRequestError] exactly when (a) [whole_link] is
    set together with one of [left_link], [right_link], [center_link], or
    (b) [center_image] is set while [right_image] and [right_text] are both
    absent, or (c) exactly one of [center_image] and [center_color] is set;
    and it then raises before the image resolver is called and before any
    request or read: the state of the run, world and trace, is untouched. *)
Theorem badge_invalid_request `{Env} (req : BadgeRequest) (st : State) :
  ((exists e, outcome (badge req) st = Raise e /\ InvalidRequestError e) <->
   invalid_request req = true) /\
  (invalid_request req = true ->
   final (badge req) st = st /\ emitted (badge req) st = []).
Proof.
  assert (Hinv : invalid_request req = true ->
            exists e, InvalidRequestError e /\ badge req st = (Raise e, st)).
  { intros Hreq. destruct (badge_fields_invalid req st Hreq) as (e & He & Hrun).
    exists e. split; [done|]. unfold badge, bind. by rewrite Hrun. }
  split; [split|].
  - intros (e & Hout & He). destruct (invalid_request req) eqn:Hreq; [done|].
    exfalso. unfold outcome in Hout.
    assert (Hc : confined other_error (fun _ => True) (badge req)).
    { unfold badge. apply confined_bind.
      - by apply badge_fields_valid_confined.
      - intros fields. apply confined_lift, other_normalize_svg. }
    destruct (badge req st) as [r st'] eqn:Hrun. cbn in Hout. subst r.
    destruct (Hc _ _ _ Hrun) as [_ HP]. by apply (HP e).
  - intros Hreq. destruct (Hinv Hreq) as (e & He & Hrun).
    exists e. unfold outcome. by rewrite Hrun.
  - intros Hreq. destruct (Hinv Hreq) as (e & He & Hrun).
    unfold emitted, final. rewrite Hrun. cbn. split; [done|]. apply drop_all.
Qed.

Lemma badge_invalid_request_witness :
  invalid_request Demo.two_links = true /\
  (exists e, outcome (@badge Demo.env Demo.two_links) Demo.start = Raise e /\
     InvalidRequestError e) /\
  final (@badge Demo.env Demo.two_links) Demo.start = Demo.start /\
  emitted (@badge Demo.env Demo.two_links) Demo.start = [].
Proof.
  destruct (@badge_invalid_request Demo.env Demo.two_links Demo.start)
    as [[_ Hraise] Hstate].
  split; [reflexivity|]. split; [by apply Hraise|]. by apply Hstate.
Defined.

(** C6. A reference that begins with [data:] comes back as it is: nothing is
    decoded, encoded or checked, no request is made and no file is read; the
    run only records that the resolver was called. *)
Theorem embed_image_data_uri `{Env} (url : string) (st : State) :
  Py.startswith "data:" url = true ->
  _embed_image url st =
    (Ok url, {| world := world st; trace := trace st ++ [EmbedImage url] |}).
Proof.
  intros Hdata. unfold _embed_image, bind, emit, ret. by rewrite Hdata.
Qed.

Lemma embed_image_data_uri_witness :
  Py.startswith "data:" "data:text/plain;base64,@@@" = true /\
  @_embed_image Demo.env "data:text/plain;base64,@@@" Demo.start =
    (Ok "data:text/plain;base64,@@@",
     @Build_State Demo.env 0%nat [EmbedImage "data:text/plain;base64,@@@"]).
Proof.
  split; [reflexivity|].
  apply (@embed_image_data_uri Demo.env "data:text/plain;base64,@@@" Demo.start).
  reflexivity.
Defined.

(** ** Runs of [badge] *)

Lemma badge_confined `{Env} (Q : event -> Prop) req :
  (forall url, url <> EmptyString -> Q (EmbedImage url) /\ Q (HttpGet url) /\ Q (OpenFile url)) ->
  confined (fun e => check_request req = Raise e \/ other_error e) Q (badge req).
Proof.
  intros HQ st r st' Hrun. destruct (invalid_request req) eqn:Hreq.
  - destruct (badge_fields_invalid req st Hreq) as (e & He & Hf).
    unfold badge, bind in Hrun. rewrite Hf in Hrun. injection Hrun as <- <-.
    split; [exists []; by rewrite app_nil_r|]. intros e' [= <-]. left.
    pose proof (check_request_spec req) as Hc.
    unfold badge_fields, bind, lift in Hf. destruct (check_request req) as [[]|e'].
    + congruence.
    + by injection Hf as ->.
  - assert (Hc : confined other_error Q (badge req)).
    { unfold badge. apply confined_bind.
      - by apply badge_fields_valid_confined.
      - intros fields. apply confined_lift, other_normalize_svg. }
    destruct (Hc _ _ _ Hrun) as [Hev HP]. split; [done|]. intros e He. right. by apply HP.
Qed.

Lemma resolver_calls_nonempty evs :
  Forall nonempty_call evs -> Forall (fun url => url <> EmptyString) (resolver_calls evs).
Proof.
  induction 1 as [|ev evs Hev _ IH]; [constructor|].
  destruct ev as [url| |]; cbn; [|done..].
  constructor; [|done]. intros ->. by apply Hev.
Qed.

Lemma embed_if_off `{Env} image : embed_if image false = ret image.
Proof. unfold embed_if. destruct image; [|done]. by rewrite andb_false_r. Qed.

(** C9. An empty string counts as absent wherever [badge] tests for
    presence: with [whole_link=""] the check on links does not fire, whatever
    the other links are; a set [center_image] with [center_color=""] is
    refused by the checks, before anything else happens; and the image
    resolver is never called on an empty string, whatever the embed flags. *)
Theorem badge_empty_string_is_absent `{Env} (req : BadgeRequest) (st : State) :
  (whole_link req = Some EmptyString ->
   outcome (badge req) st <> Raise (ValueError msg_whole_link)) /\
  (Py.truthy (center_image req) = true -> center_color req = Some EmptyString ->
   exists e, InvalidRequestError e /\ badge req st = (Raise e, st)) /\
  Forall (fun url => url <> EmptyString) (resolver_calls (emitted (badge req) st)).
Proof.
  assert (HQ : forall url, url <> EmptyString ->
            nonempty_call (EmbedImage url) /\ nonempty_call (HttpGet url) /\
            nonempty_call (OpenFile url)).
  { intros url Hurl. repeat split; unfold nonempty_call; congruence. }
  pose proof (badge_confined nonempty_call req HQ st) as Hc.
  unfold outcome, emitted, final. destruct (badge req st) as [r st'] eqn:Hrun.
  destruct (Hc _ _ eq_refl) as [(evs & Ht & Hevs) HP]. cbn. repeat split.
  - intros Hw ->. destruct (HP _ eq_refl) as [Hchk|Hother].
    + unfold check_request in Hchk. rewrite Hw, andb_false_r in Hchk.
      repeat case_match; discriminate.
    + apply Hother. by left.
  - intros Hci Hcc.
    assert (Hreq : invalid_request req = true).
    { unfold invalid_request, center_mismatch, is_set. rewrite Hci, Hcc. cbn.
      by rewrite !orb_true_r. }
    destruct (badge_fields_invalid req st Hreq) as (e & He & Hf).
    exists e. split; [done|]. rewrite <- Hrun. unfold badge, bind. by rewrite Hf.
  - rewrite Ht, drop_app_length. by apply resolver_calls_nonempty.
Qed.

Lemma badge_empty_string_is_absent_witness :
  (exists svg, outcome (@badge Demo.env Demo.empty_whole_link) Demo.start = Ok svg) /\
  outcome (@badge Demo.env Demo.empty_whole_link) Demo.start
    <> Raise (ValueError msg_whole_link) /\
  (exists e, InvalidRequestError e /\
     @badge Demo.env Demo.empty_center_color Demo.start = (Raise e, Demo.start)) /\
  resolver_calls (emitted (@badge Demo.env Demo.empty_whole_link) Demo.start) = [].
Proof.
  destruct (@badge_empty_string_is_absent Demo.env Demo.empty_whole_link Demo.start)
    as (Hw & _ & _).
  destruct (@badge_empty_string_is_absent Demo.env Demo.empty_center_color Demo.start)
    as (_ & Hc & _).
  split; [eexists; vm_compute; reflexivity|].
  split; [apply Hw; reflexivity|].
  split; [apply Hc; reflexivity|].
  vm_compute. reflexivity.
Defined.

(** C8. Without image embedding [badge] is a function of its arguments
    alone: for a valid request with the three embed flags off, the result is
    the normalised rendering of fields computed from the request, the world
    and the trace are left as they were, and so two runs, from any two
    states of the network and of the file system, give the same text. *)
Theorem badge_deterministic_without_embedding `{Env} (req : BadgeRequest) :
  invalid_request req = false -> no_embedding req ->
  (forall st, badge req st = (normalize_svg (template_render (plain_fields req)), st)) /\
  (forall st1 st2, outcome (badge req) st1 = outcome (badge req) st2).
Proof.
  intros Hreq (Hl & Hr & Hc).
  assert (Hrun : forall st,
            badge req st = (normalize_svg (template_render (plain_fields req)), st)).
  { intros st. pose proof (check_request_spec req) as Hchk.
    unfold badge, badge_fields. rewrite Hl, Hr, Hc, !embed_if_off.
    unfold bind, lift, ret. destruct (check_request req) as [[]|e].
    - unfold plain_fields.
      destruct (center_color req) as [[|c0 c]|]; reflexivity.
    - destruct Hchk; congruence. }
  split; [exact Hrun|]. intros st1 st2. unfold outcome. by rewrite !Hrun.
Qed.

Lemma badge_deterministic_without_embedding_witness :
  invalid_request Demo.build_passing = false /\ no_embedding Demo.build_passing /\
  @badge Demo.env Demo.build_passing (@Build_State Demo.env 7%nat [OpenFile "x"]) =
    (Ok ("<svg id=" +:+ Py.dquote +:+ "badge" +:+ Py.dquote +:+ "><rect fill="
         +:+ Py.dquote +:+ "#555" +:+ Py.dquote +:+ "/><text>build</text><rect fill="
         +:+ Py.dquote +:+ "#97CA00" +:+ Py.dquote +:+ "/><text>passing</text></svg>"),
     @Build_State Demo.env 7%nat [OpenFile "x"]).
Proof.
  assert (Hv : invalid_request Demo.build_passing = false) by reflexivity.
  assert (Hn : no_embedding Demo.build_passing) by (repeat split).
  split; [exact Hv|]. split; [exact Hn|].
  destruct (@badge_deterministic_without_embedding Demo.env Demo.build_passing Hv Hn)
    as [Hrun _].
  rewrite Hrun. f_equal.
Defined.

(** ** The fields [badge] computes without the image resolver *)

Lemma badge_fields_Ok `{Env} (req : BadgeRequest) (st st' : State)
    (fields : Template.Fields) :
  badge_fields req st = (Ok fields, st') ->
  let m := default default_measurer (measurer req) in
  Template.left_text_width fields = (text_width m (left_text req) / 10)%float /\
  Template.right_text_width fields =
    (if Py.truthy (right_text req)
     then Some (text_width m (default EmptyString (right_text req)) / 10)%float
     else None) /\
  Template.left_color fields = resolve_color (left_color req) /\
  Template.right_color fields = resolve_color (right_color req) /\
  Template.center_color fields = resolve_color <$> center_color req.
Proof.
  unfold badge_fields, bind, lift.
  destruct (check_request req); [|discriminate].
  destruct (embed_if (logo req) _ st) as [[l|e] s1]; [|discriminate].
  destruct (embed_if (right_image req) _ s1) as [[ri|e] s2]; [|discriminate].
  destruct (embed_if (center_image req) _ s2) as [[ci|e] s3]; [|discriminate].
  unfold ret. intros [= <- <-]. cbn.
  repeat split.
  destruct (center_color req) as [[|c0 c]|]; cbn; reflexivity.
Qed.

(** C5. [badge] always hands the template [text_width(left_text) / 10.0] as
    the left width. The right width is [text_width(right_text) / 10.0] when
    [right_text] is a non-empty string; when [right_text] is [None] or the
    empty string the field is [None], which is not the width [0], whatever
    the measurer answers for the empty string. *)
Theorem badge_text_widths `{Env} (req : BadgeRequest) (st st' : State)
    (fields : Template.Fields) :
  badge_fields req st = (Ok fields, st') ->
  let m := default default_measurer (measurer req) in
  Template.left_text_width fields = (text_width m (left_text req) / 10)%float /\
  (forall s, right_text req = Some s -> s <> EmptyString ->
     Template.right_text_width fields = Some (text_width m s / 10)%float) /\
  (right_text req = None \/ right_text req = Some EmptyString ->
     Template.right_text_width fields = None /\
     Template.right_text_width fields <> Some 0%float).
Proof.
  intros Hrun m. destruct (badge_fields_Ok _ _ _ _ Hrun) as (Hl & Hr & _).
  fold m in Hl, Hr. split; [exact Hl|]. rewrite Hr. split.
  - intros s -> Hs. destruct s; [congruence|reflexivity].
  - intros [-> | ->]; cbn; (split; [reflexivity|discriminate]).
Qed.

Lemma badge_text_widths_witness :
  (exists fields st',
     @badge_fields Demo.env Demo.build_passing Demo.start = (Ok fields, st') /\
     Template.left_text_width fields = (325 / 10)%float /\
     Template.right_text_width fields = Some (455 / 10)%float) /\
  (exists fields st',
     @badge_fields Demo.env Demo.empty_right_text Demo.start = (Ok fields, st') /\
     Template.left_text_width fields = (65 / 10)%float /\
     Template.right_text_width fields = None /\
     Template.right_text_width fields <> Some 0%float).
Proof.
  split.
  - evaluate (@badge_fields Demo.env Demo.build_passing) Demo.start Hrun.
    match type of Hrun with
    | _ = (Ok ?fields, ?st') =>
        exists fields, st'; split; [exact Hrun|];
        destruct (@badge_text_widths Demo.env Demo.build_passing Demo.start st' fields
                    Hrun) as (Hl & Hr & _)
    end.
    split; [exact Hl|]. by apply (Hr "passing").
  - evaluate (@badge_fields Demo.env Demo.empty_right_text) Demo.start Hrun.
    match type of Hrun with
    | _ = (Ok ?fields, ?st') =>
        exists fields, st'; split; [exact Hrun|];
        destruct (@badge_text_widths Demo.env Demo.empty_right_text Demo.start st' fields
                    Hrun) as (Hl & _ & Hr)
    end.
    split; [exact Hl|]. apply Hr. by right.
Defined.

(** ** Resolving colours *)

Lemma color_names_lower name css :
  _NAME_TO_COLOR !! name = Some css -> Py.lower name = name.
Proof.
  intros Hin. unfold _NAME_TO_COLOR in Hin. apply elem_of_list_to_map_2 in Hin.
  repeat (apply elem_of_cons in Hin as [[= -> ->]|Hin]; [reflexivity|]).
  by apply elem_of_nil in Hin.
Qed.

(** C4. Resolving a colour cannot fail: a name of the table gives the CSS
    value the table holds for it ([brightgreen] gives [#4c1]), any other
    string comes back unchanged, and so does every string that holds an
    upper-case letter, the table being all lower case. [badge] hands the
    template the resolved [left_color] and [right_color], and the resolved
    [center_color] when there is one. *)
Theorem resolve_color_law `{Env} :
  (forall name css, _NAME_TO_COLOR !! name = Some css -> resolve_color name = css) /\
  resolve_color "brightgreen" = "#4c1" /\
  (forall name, _NAME_TO_COLOR !! name = None -> resolve_color name = name) /\
  (forall name, Py.lower name <> name -> resolve_color name = name) /\
  (forall req st fields st', badge_fields req st = (Ok fields, st') ->
     Template.left_color fields = resolve_color (left_color req) /\
     Template.right_color fields = resolve_color (right_color req) /\
     Template.center_color fields = resolve_color <$> center_color req).
Proof.
  unfold resolve_color. split; [|split; [|split; [|split]]].
  - by intros name css ->.
  - reflexivity.
  - by intros name ->.
  - intros name Hcase. destruct (_NAME_TO_COLOR !! name) as [css|] eqn:Hin; [|done].
    by apply color_names_lower in Hin.
  - intros req st fields st' Hrun.
    by destruct (badge_fields_Ok _ _ _ _ Hrun) as (_ & _ & Hl & Hr & Hc).
Qed.

Lemma resolve_color_law_witness :
  resolve_color "green" = "#97CA00" /\
  resolve_color "not-a-known-name" = "not-a-known-name" /\
  resolve_color "BrightGreen" = "BrightGreen" /\
  exists fields st',
    @badge_fields Demo.env Demo.empty_right_text Demo.start = (Ok fields, st') /\
    Template.left_color fields = "Green" /\ Template.right_color fields = "#4c1".
Proof.
  destruct (@resolve_color_law Demo.env) as (Hin & _ & Hout & Hcase & Hbadge).
  split; [by apply Hin|]. split; [by apply Hout|]. split; [by apply Hcase|].
  evaluate (@badge_fields Demo.env Demo.empty_right_text) Demo.start Hrun.
  match type of Hrun with
  | _ = (Ok ?fields, ?st') =>
      exists fields, st'; split; [exact Hrun|];
      destruct (Hbadge Demo.empty_right_text Demo.start fields st' Hrun) as (Hl & Hr & _)
  end.
  by split.
Defined.

(** ** The remote branch *)

Lemma partition_contains c s :
  Py.partition c s = None <-> Py.contains_char c s = false.
Proof.
  induction s as [|a s IH]; cbn; [done|].
  destruct (Ascii.eqb a c); cbn; [split; discriminate|].
  destruct (Py.partition c s) as [[h t]|]; [|exact IH].
  split; [discriminate|]. intros Hc. apply IH in Hc. discriminate.
Qed.

Lemma raise_for_status_spec resp :
  (error_status resp -> raise_for_status resp = Raise (HTTPError (status_code resp))) /\
  (~ error_status resp -> raise_for_status resp = Ok tt).
Proof.
  unfold error_status, raise_for_status.
  destruct (400 <=? status_code resp) eqn:Hlo, (status_code resp <? 600) eqn:Hhi; cbn;
    split; intros Hs; try reflexivity; exfalso; lia.
Qed.

Lemma embed_image_remote `{Env} url st :
  is_remote url ->
  _embed_image url st =
    (data_uri (outcome (_fetch_remote_image url) (record (EmbedImage url) st)),
     final (_fetch_remote_image url) (record (EmbedImage url) st)).
Proof.
  intros [Hdata Hscheme]. unfold _embed_image, bind at 1, emit. rewrite Hdata.
  assert (Hs : String.eqb (urlparse_scheme url) "http"
               || String.eqb (urlparse_scheme url) "https" = true).
  { destruct Hscheme as [-> | ->]; reflexivity. }
  rewrite Hs. unfold bind at 1, outcome, final, record.
  destruct (_fetch_remote_image url _) as [[[image_data mime]|e] st1]; reflexivity.
Qed.

Lemma fetch_remote_run `{Env} url st resp w :
  requests_get url (world st) = inr (resp, w) ->
  _fetch_remote_image url st =
    (match raise_for_status resp with
     | Raise e => Raise e
     | Ok _ =>
         match headers_get "content-type" resp with
         | None | Some EmptyString => Raise (ValueError msg_no_content_type)
         | Some content_type =>
             match Py.partition "/" content_type with
             | None => Raise (ValueError "not enough values to unpack (expected 2, got 1)")
             | Some (major, minor) =>
                 if String.eqb (Py.lower major) "image"
                 then Ok (content resp, content_type)
                 else Raise (ValueError (msg_expected_image major))
             end
         end
     end,
     {| world := w; trace := trace st ++ [HttpGet url] |}).
Proof.
  intros Hget. unfold _fetch_remote_image, do_requests_get, bind, emit, lift, raise, ret.
  cbn. rewrite Hget. destruct (raise_for_status resp) as [[]|e]; [|done].
  destruct (headers_get "content-type" resp) as [[|c0 c]|]; [done| |done].
  change (Py.truthy (Some (String c0 c))) with true.
  generalize (String c0 c). intros content_type. cbn.
  unfold Py.split1. destruct (Py.partition "/" content_type) as [[major minor]|]; cbn; [|done].
  by destruct (String.eqb (Py.lower major) "image").
Qed.

Lemma invalid_image_error msg :
  other_error (ValueError msg) -> InvalidImageError (ValueError msg).
Proof. intros Hother. by exists msg. Qed.

(** C2, as the code has it. For a remote reference whose request is answered:
    a status from 400 to 599 makes the resolution fail with the client's
    [HTTPError], which is no [ValueError]; otherwise an absent or empty
    [Content-Type] header fails with the resolver's [ValueError], and so does
    a header whose part before the first [/], lower-cased, is not [image];
    otherwise the fetch returns the body and the header as it was sent, and
    [_embed_image] answers [data:<header>;base64,<base64 of the body>]. *)
Theorem remote_image_resolution `{Env} (url : string) (st : State)
    (resp : Response) (w : World) :
  is_remote url ->
  requests_get url (world st) = inr (resp, w) ->
  let r := outcome (_embed_image url) st in
  let fetched := outcome (_fetch_remote_image url) (record (EmbedImage url) st) in
  let header := headers_get "content-type" resp in
  (error_status resp -> r = Raise (HTTPError (status_code resp))) /\
  (~ error_status resp ->
   (header = None \/ header = Some EmptyString ->
    r = Raise (ValueError msg_no_content_type) /\
    InvalidImageError (ValueError msg_no_content_type)) /\
   (forall content_type major minor,
      header = Some content_type ->
      Py.partition "/" content_type = Some (major, minor) ->
      (Py.lower major <> "image" ->
       r = Raise (ValueError (msg_expected_image major)) /\
       InvalidImageError (ValueError (msg_expected_image major))) /\
      (Py.lower major = "image" ->
       fetched = Ok (content resp, content_type) /\
       r = Ok ("data:" +:+ content_type +:+ ";base64," +:+ Base64.b64encode (content resp))))).
Proof.
  intros Hremote Hget r fetched header.
  assert (Hr : r = data_uri fetched).
  { unfold r, fetched, outcome at 1. by rewrite embed_image_remote. }
  assert (Hf : fetched = (_fetch_remote_image url (record (EmbedImage url) st)).1) by done.
  rewrite (fetch_remote_run url (record (EmbedImage url) st) resp w Hget) in Hf.
  cbn [fst] in Hf. fold header in Hf.
  destruct (raise_for_status_spec resp) as [Herr Hok]. split.
  - intros Hs. rewrite (Herr Hs) in Hf. by rewrite Hr, Hf.
  - intros Hs. rewrite (Hok Hs) in Hf. split.
    + intros Hh. split; [|apply invalid_image_error; not_request_error].
      rewrite Hr, Hf. by destruct Hh as [-> | ->].
    + intros content_type major minor Hh Hp. rewrite Hh, Hp in Hf.
      assert (Hne : content_type <> EmptyString) by (by intros ->).
      destruct content_type as [|c0 c]; [done|]. split.
      * intros Hm. apply String.eqb_neq in Hm. rewrite Hm in Hf.
        split; [by rewrite Hr, Hf|apply invalid_image_error, other_expected_image].
      * intros Hm. apply String.eqb_eq in Hm. rewrite Hm in Hf.
        split; [done|by rewrite Hr, Hf].
Qed.

Lemma remote_image_resolution_witness :
  outcome (@_embed_image Demo.env "http://example.com/logo.png") Demo.start
    = Ok "data:image/png;base64,iVBORw0KGgoA" /\
  outcome (@_embed_image Demo.env "https://example.com/upper.png") Demo.start
    = Ok "data:Image/PNG;base64,iVBORw0KGgoA" /\
  outcome (@_embed_image Demo.env "https://example.com/missing.png") Demo.start
    = Raise (HTTPError 404) /\
  outcome (@_embed_image Demo.env "http://example.com/page") Demo.start
    = Raise (ValueError (msg_expected_image "text")) /\
  outcome (@_embed_image Demo.env "http://example.com/untyped") Demo.start
    = Raise (ValueError msg_no_content_type).
Proof.
  assert (Hlogo : @is_remote Demo.env "http://example.com/logo.png")
    by (split; [reflexivity|left; reflexivity]).
  assert (Hupper : @is_remote Demo.env "https://example.com/upper.png")
    by (split; [reflexivity|right; reflexivity]).
  assert (Hmissing : @is_remote Demo.env "https://example.com/missing.png")
    by (split; [reflexivity|right; reflexivity]).
  assert (Hpage : @is_remote Demo.env "http://example.com/page")
    by (split; [reflexivity|left; reflexivity]).
  assert (Huntyped : @is_remote Demo.env "http://example.com/untyped")
    by (split; [reflexivity|left; reflexivity]).
  assert (Hgood : forall status ct body, status = 200 ->
            ~ error_status (Demo.response status ct body)).
  { intros status ct body ->. unfold error_status. cbn. lia. }
  split; [|split; [|split; [|split]]].
  - destruct (@remote_image_resolution Demo.env _ Demo.start _ 1%nat Hlogo eq_refl)
      as [_ Hok].
    destruct (Hok (Hgood _ _ _ eq_refl)) as [_ Hct].
    destruct (Hct "image/png" "image" "png" eq_refl eq_refl) as [_ Himg].
    by destruct (Himg eq_refl).
  - destruct (@remote_image_resolution Demo.env _ Demo.start _ 1%nat Hupper eq_refl)
      as [_ Hok].
    destruct (Hok (Hgood _ _ _ eq_refl)) as [_ Hct].
    destruct (Hct "Image/PNG" "Image" "PNG" eq_refl eq_refl) as [_ Himg].
    by destruct (Himg eq_refl).
  - destruct (@remote_image_resolution Demo.env _ Demo.start _ 1%nat Hmissing eq_refl)
      as [Herr _].
    apply Herr. unfold error_status. cbn. lia.
  - destruct (@remote_image_resolution Demo.env _ Demo.start _ 1%nat Hpage eq_refl)
      as [_ Hok].
    destruct (Hok (Hgood _ _ _ eq_refl)) as [_ Hct].
    destruct (Hct "text/plain" "text" "plain" eq_refl eq_refl) as [Htxt _].
    by destruct Htxt.
  - destruct (@remote_image_resolution Demo.env _ Demo.start _ 1%nat Huntyped eq_refl)
      as [_ Hok].
    destruct (Hok (Hgood _ _ _ eq_refl)) as [Hnone _].
    destruct Hnone as [Hnone _]; [by left|exact Hnone].
Defined.

(** C2, as the specification words it, fails. A remote reference answered
    with status 404 ends in the client's [HTTPError], which is no
    [InvalidImageError]; and an answer whose header is [Image/PNG], of major
    type [Image], is accepted. *)
Lemma remote_error_status_counterexample :
  let missing := "https://example.com/missing.png" in
  let upper := "https://example.com/upper.png" in
  (@is_remote Demo.env missing /\
   Demo.requests_get missing 0%nat
     = inr (Demo.response 404 (Some "text/html") Demo.txt_bytes, 1%nat) /\
   outcome (@_embed_image Demo.env missing) Demo.start = Raise (HTTPError 404) /\
   ~ InvalidImageError (HTTPError 404)) /\
  (@is_remote Demo.env upper /\
   Demo.requests_get upper 0%nat
     = inr (Demo.response 200 (Some "Image/PNG") Demo.png_bytes, 1%nat) /\
   Py.partition "/" "Image/PNG" = Some ("Image", "PNG") /\
   outcome (@_embed_image Demo.env upper) Demo.start
     = Ok "data:Image/PNG;base64,iVBORw0KGgoA").
Proof.
  cbv zeta. split.
  - split; [split; [reflexivity|right; reflexivity]|].
    split; [reflexivity|]. split; [reflexivity|].
    intros (msg & Hmsg & _). discriminate Hmsg.
  - split; [split; [reflexivity|right; reflexivity]|].
    split; [reflexivity|]. split; reflexivity.
Qed.

(** C10. When the answer carries a [Content-Type] header without any [/],
    [_fetch_remote_image] raises instead of returning: for a status that
    passes and a non-empty header it is the [ValueError] of unpacking one
    value into two names. Conversely, what it returns is the header it was
    sent, and that header holds a [/]. *)
Theorem remote_content_type_without_slash `{Env} (url : string) (st : State) :
  (forall resp w content_type,
     requests_get url (world st) = inr (resp, w) ->
     headers_get "content-type" resp = Some content_type ->
     Py.contains_char "/" content_type = false ->
     (exists e, outcome (_fetch_remote_image url) st = Raise e) /\
     (~ error_status resp -> content_type <> EmptyString ->
      outcome (_fetch_remote_image url) st
        = Raise (ValueError "not enough values to unpack (expected 2, got 1)"))) /\
  (forall image_data mime,
     outcome (_fetch_remote_image url) st = Ok (image_data, mime) ->
     Py.contains_char "/" mime = true /\
     exists resp w, requests_get url (world st) = inr (resp, w) /\
       headers_get "content-type" resp = Some mime /\ image_data = content resp).
Proof.
  split.
  - intros resp w content_type Hget Hh Hslash. apply partition_contains in Hslash.
    unfold outcome. rewrite (fetch_remote_run url st resp w Hget). cbn [fst].
    rewrite Hh, Hslash. destruct (raise_for_status_spec resp) as [Herr Hok]. split.
    + destruct (raise_for_status resp) as [[]|e]; [|by exists e].
      destruct content_type; by eexists.
    + intros Hs Hne. rewrite (Hok Hs). by destruct content_type.
  - intros image_data mime. unfold outcome.
    destruct (requests_get url (world st)) as [detail|[resp w]] eqn:Hget.
    + unfold _fetch_remote_image, do_requests_get, bind, emit. cbn. by rewrite Hget.
    + rewrite (fetch_remote_run url st resp w Hget). cbn [fst].
      destruct (raise_for_status resp) as [[]|e]; [|done].
      destruct (headers_get "content-type" resp) as [[|c0 c]|] eqn:Hh; [done| |done].
      destruct (Py.partition "/" (String c0 c)) as [[major minor]|] eqn:Hp; [|done].
      destruct (String.eqb (Py.lower major) "image"); [|done]. intros [= <- <-].
      split; [|by exists resp, w].
      destruct (Py.contains_char "/" (String c0 c)) eqn:Hc; [done|].
      apply partition_contains in Hc. congruence.
Qed.

Lemma remote_content_type_without_slash_witness :
  outcome (@_fetch_remote_image Demo.env "http://example.com/bare") Demo.start
    = Raise (ValueError "not enough values to unpack (expected 2, got 1)") /\
  Py.contains_char "/" "image/png" = true.
Proof.
  destruct (@remote_content_type_without_slash Demo.env "http://example.com/bare" Demo.start)
    as [Hbare _].
  destruct (@remote_content_type_without_slash Demo.env "http://example.com/logo.png"
              Demo.start) as [_ Hlogo].
  split.
  - destruct (Hbare (Demo.response 200 (Some "image") Demo.png_bytes) 1%nat "image"
                eq_refl eq_refl eq_refl) as [_ Hunpack].
    apply Hunpack; [|discriminate]. unfold error_status. cbn. lia.
  - by destruct (Hlogo Demo.png_bytes "image/png" eq_refl).
Defined.

(** ** The local branch *)

Lemma bytes_startswith_spec p l :
  Py.bytes_startswith p l = true <-> exists rest, l = p ++ rest.
Proof.
  revert l. induction p as [|a p IH]; intros l; cbn.
  - split; [by exists l|done].
  - destruct l as [|b l]; [split; [done|by intros [rest [=]]]|].
    destruct (Byte.eqb a b) eqn:Hab.
    + apply Byte.byte_dec_bl in Hab as ->. rewrite IH. split.
      * intros [rest ->]. by exists rest.
      * intros [rest [= ->]]. by exists rest.
    + apply Byte.eqb_false in Hab. split; [done|]. intros [rest [= -> _]]. done.
Qed.

Lemma bytes_contains_spec needle hay :
  Py.bytes_contains needle hay = true <->
  exists before after, hay = before ++ needle ++ after.
Proof.
  induction hay as [|b hay IH]; cbn.
  - rewrite orb_false_r, bytes_startswith_spec. split.
    + intros [rest Hr]. by exists [], rest.
    + intros (before & after & Hh). symmetry in Hh.
      apply app_eq_nil in Hh as [-> Hh]. apply app_eq_nil in Hh as [-> ->]. by exists [].
  - rewrite orb_true_iff, IH, bytes_startswith_spec. split.
    + intros [[rest ->]|(before & after & ->)].
      * by exists [], rest.
      * by exists (b :: before), after.
    + intros (before & after & Hh). destruct before as [|b' before].
      * left. by exists after.
      * injection Hh as -> ->. right. by exists before, after.
Qed.

Lemma svg_in_head_spec data :
  Py.bytes_contains (list_byte_of_string "<svg") (Py.bytes_lower (take 500%nat data)) = true
  <-> svg_in_head data.
Proof.
  unfold svg_in_head, Py.bytes_lower. rewrite bytes_contains_spec. split.
  - intros (before & after & Hh).
    apply map_eq_app in Hh as (before' & rest & Hd & _ & Hrest).
    apply map_eq_app in Hrest as (marker & after' & -> & Hm & _).
    by exists before', marker, after'.
  - intros (before & marker & after & -> & Hm).
    exists (map Py.lower_byte before), (map Py.lower_byte after).
    by rewrite !map_app, Hm.
Qed.

Lemma fetch_local_run `{Env} path st data w :
  open_read path (world st) = inr (data, w) ->
  _fetch_local_image_and_mime path st =
    (match filetype_guess data with
     | Some mime =>
         if Py.startswith "image/" mime then Ok (data, mime)
         else Raise (ValueError (msg_expected_image (major_type mime)))
     | None =>
         if Py.bytes_contains (list_byte_of_string "<svg")
              (Py.bytes_lower (take 500%nat data))
         then Ok (data, "image/svg+xml")
         else match mimetypes_guess_type path with
              | None | Some EmptyString => Raise (ValueError msg_undetermined)
              | Some guessed =>
                  if String.eqb (major_type guessed) "image" then Ok (data, guessed)
                  else Raise (ValueError (msg_expected_image (major_type guessed)))
              end
     end,
     {| world := w; trace := trace st ++ [OpenFile path] |}).
Proof.
  intros Hread. unfold _fetch_local_image_and_mime, do_open_read, bind, emit, raise, ret.
  cbn -[Py.startswith Py.bytes_contains take]. rewrite Hread.
  destruct (filetype_guess data) as [mime|]; cbn -[Py.startswith Py.bytes_contains take].
  - by destruct (Py.startswith "image/" mime).
  - destruct (Py.bytes_contains _ _); [done|].
    destruct (mimetypes_guess_type path) as [[|g0 g]|]; [done| |done].
    change (Py.truthy (Some (String g0 g))) with true.
    generalize (String g0 g). intros guessed. cbn. unfold major_type.
    by destruct (String.eqb (first (Py.split1 "/" guessed)) "image").
Qed.

Lemma embed_image_local `{Env} url st :
  is_local url ->
  _embed_image url st =
    (data_uri (outcome (_fetch_local_image_and_mime url) (record (EmbedImage url) st)),
     final (_fetch_local_image_and_mime url) (record (EmbedImage url) st)).
Proof.
  intros [Hdata Hscheme]. unfold _embed_image, bind at 1, emit. rewrite Hdata, Hscheme.
  cbn [String.eqb orb Py.nonempty]. unfold bind at 1, outcome, final, record.
  destruct (_fetch_local_image_and_mime url _) as [[[image_data mime]|e] st1]; reflexivity.
Qed.

(** C3. For a file that can be read, the MIME type comes from three stages
    in order, the first that answers deciding. (1) What the magic bytes say:
    an image type is the answer whatever the path is, any other type fails
    with an error that names its major type. (2) If the magic bytes say
    nothing and [<svg] stands, in any case, in the first 500 bytes, the type
    is [image/svg+xml]. (3) Otherwise the type guessed from the path: an
    image type is the answer, another type fails, and no guess fails with
    [not able to determine file type]. For a reference without scheme
    [_embed_image] makes its data URI out of this answer. *)
Theorem local_mime_fallback `{Env} (path : string) (st : State)
    (data : list byte) (w : World) :
  open_read path (world st) = inr (data, w) ->
  let r := outcome (_fetch_local_image_and_mime path) st in
  (forall mime, filetype_guess data = Some mime ->
     (Py.startswith "image/" mime = true -> r = Ok (data, mime)) /\
     (Py.startswith "image/" mime = false ->
      r = Raise (ValueError (msg_expected_image (major_type mime))) /\
      InvalidImageError (ValueError (msg_expected_image (major_type mime))))) /\
  (filetype_guess data = None -> svg_in_head data ->
   r = Ok (data, "image/svg+xml")) /\
  (filetype_guess data = None -> ~ svg_in_head data ->
   (forall guessed, mimetypes_guess_type path = Some guessed -> guessed <> EmptyString ->
      (major_type guessed = "image" -> r = Ok (data, guessed)) /\
      (major_type guessed <> "image" ->
       r = Raise (ValueError (msg_expected_image (major_type guessed))) /\
       InvalidImageError (ValueError (msg_expected_image (major_type guessed))))) /\
   (mimetypes_guess_type path = None \/ mimetypes_guess_type path = Some EmptyString ->
    r = Raise (ValueError msg_undetermined) /\
    InvalidImageError (ValueError msg_undetermined))) /\
  (is_local path -> outcome (_embed_image path) st = data_uri r).
Proof.
  intros Hread r.
  assert (Hr : r = (_fetch_local_image_and_mime path st).1) by done.
  rewrite (fetch_local_run path st data w Hread) in Hr. cbn [fst] in Hr.
  split; [|split; [|split]].
  - intros mime Hm. rewrite Hm in Hr. split; intros Hi; rewrite Hi in Hr; [done|].
    split; [done|apply invalid_image_error, other_expected_image].
  - intros Hm Hsvg. apply svg_in_head_spec in Hsvg. by rewrite Hm, Hsvg in Hr.
  - intros Hm Hsvg. rewrite Hm in Hr.
    destruct (Py.bytes_contains _ _) eqn:Hc; [by apply svg_in_head_spec in Hc|].
    split.
    + intros guessed Hg Hne. rewrite Hg in Hr. destruct guessed as [|g0 g]; [done|].
      split; intros Hmaj.
      * apply String.eqb_eq in Hmaj. by rewrite Hmaj in Hr.
      * apply String.eqb_neq in Hmaj. rewrite Hmaj in Hr.
        split; [done|apply invalid_image_error, other_expected_image].
    + intros Hg. split; [|apply invalid_image_error; not_request_error].
      by destruct Hg as [Hg|Hg]; rewrite Hg in Hr.
  - intros Hlocal. unfold outcome at 1. rewrite (embed_image_local path st Hlocal).
    cbn [fst]. unfold r, outcome.
    by rewrite (fetch_local_run path (record (EmbedImage path) st) data w Hread),
      (fetch_local_run path st data w Hread).
Qed.

Lemma local_mime_fallback_witness :
  outcome (@_fetch_local_image_and_mime Demo.env "logo.txt") Demo.start
    = Ok (Demo.png_bytes, "image/png") /\
  outcome (@_embed_image Demo.env "logo.txt") Demo.start
    = Ok "data:image/png;base64,iVBORw0KGgoA" /\
  outcome (@_fetch_local_image_and_mime Demo.env "manual.png") Demo.start
    = Raise (ValueError (msg_expected_image "application")) /\
  outcome (@_fetch_local_image_and_mime Demo.env "icon.dat") Demo.start
    = Ok (Demo.svg_bytes, "image/svg+xml") /\
  outcome (@_fetch_local_image_and_mime Demo.env "notes.png") Demo.start
    = Ok (Demo.txt_bytes, "image/png") /\
  outcome (@_fetch_local_image_and_mime Demo.env "notes.txt") Demo.start
    = Raise (ValueError (msg_expected_image "text")) /\
  outcome (@_fetch_local_image_and_mime Demo.env "notes.dat") Demo.start
    = Raise (ValueError msg_undetermined).
Proof.
  assert (Hsvg : svg_in_head Demo.svg_bytes) by (by apply svg_in_head_spec).
  assert (Htxt : ~ svg_in_head Demo.txt_bytes).
  { intros Hin. apply svg_in_head_spec in Hin. vm_compute in Hin. discriminate. }
  split; [|split; [|split; [|split; [|split; [|split]]]]].
  - destruct (@local_mime_fallback Demo.env "logo.txt" Demo.start Demo.png_bytes 1%nat
                eq_refl) as (Hmagic & _).
    destruct (Hmagic "image/png" eq_refl) as [Himg _]. by apply Himg.
  - destruct (@local_mime_fallback Demo.env "logo.txt" Demo.start Demo.png_bytes 1%nat
                eq_refl) as (Hmagic & _ & _ & Hembed).
    destruct (Hmagic "image/png" eq_refl) as [Himg _].
    rewrite Hembed; [|by split]. by rewrite Himg.
  - destruct (@local_mime_fallback Demo.env "manual.png" Demo.start Demo.pdf_bytes 1%nat
                eq_refl) as (Hmagic & _).
    destruct (Hmagic "application/pdf" eq_refl) as [_ Hother].
    by destruct Hother.
  - destruct (@local_mime_fallback Demo.env "icon.dat" Demo.start Demo.svg_bytes 1%nat
                eq_refl) as (_ & Hmarker & _).
    by apply Hmarker.
  - destruct (@local_mime_fallback Demo.env "notes.png" Demo.start Demo.txt_bytes 1%nat
                eq_refl) as (_ & _ & Hext & _).
    destruct (Hext eq_refl Htxt) as [Hguess _].
    destruct (Hguess "image/png" eq_refl) as [Himg _]; [done|]. by apply Himg.
  - destruct (@local_mime_fallback Demo.env "notes.txt" Demo.start Demo.txt_bytes 1%nat
                eq_refl) as (_ & _ & Hext & _).
    destruct (Hext eq_refl Htxt) as [Hguess _].
    destruct (Hguess "text/plain" eq_refl) as [_ Hother]; [done|].
    by destruct Hother.
  - destruct (@local_mime_fallback Demo.env "notes.dat" Demo.start Demo.txt_bytes 1%nat
                eq_refl) as (_ & _ & Hext & _).
    destruct (Hext eq_refl Htxt) as [_ Hnone].
    destruct Hnone as [Hnone _]; [by left|exact Hnone].
Defined.

(** ** Stripping *)

Lemma lstrip_head_ok s : head_ok (Py.lstrip s).
Proof.
  induction s as [|a s IH]; cbn; [done|].
  by destruct (Py.isspace a) eqn:Ha.
Qed.

Lemma head_ok_lstrip s : head_ok s -> Py.lstrip s = s.
Proof. destruct s as [|a s]; cbn; [done|]. by intros ->. Qed.

Lemma rstrip_head_ok s : head_ok s -> head_ok (Py.rstrip s).
Proof.
  destruct s as [|a s]; cbn; [done|]. intros Ha.
  destruct (Py.rstrip s); by rewrite ?Ha.
Qed.

Lemma rstrip_idemp s : Py.rstrip (Py.rstrip s) = Py.rstrip s.
Proof.
  induction s as [|a s IH]; cbn; [done|].
  destruct (Py.rstrip s) as [|b r] eqn:Hr.
  - destruct (Py.isspace a) eqn:Ha; cbn; [done|]. by rewrite Ha.
  - cbn -[Py.rstrip]. change (Py.rstrip (String a (String b r))) with
      (match Py.rstrip (String b r) with
       | EmptyString => if Py.isspace a then EmptyString else String a EmptyString
       | r' => String a r'
       end).
    by rewrite IH.
Qed.

Lemma rstrip_app s t :
  t <> EmptyString -> Py.rstrip t = t -> Py.rstrip (s +:+ t) = s +:+ t.
Proof.
  intros Hne Ht. induction s as [|a s IH]; [done|].
  change (Py.rstrip (String a (s +:+ t)) = String a (s +:+ t)). cbn [Py.rstrip].
  rewrite IH. destruct (s +:+ t) eqn:Hst; [|done].
  destruct s; cbn in Hst; [done|discriminate].
Qed.

Lemma strip_empty_or_stripped s :
  Py.strip s = EmptyString \/ stripped (Py.strip s).
Proof.
  destruct (Py.strip s) eqn:Hs; [by left|right]. rewrite <- Hs. unfold Py.strip.
  repeat split.
  - unfold Py.strip in Hs. by rewrite Hs.
  - apply rstrip_head_ok, lstrip_head_ok.
  - apply rstrip_idemp.
Qed.

Lemma stripped_strip s : stripped s -> Py.strip s = s.
Proof. intros (_ & Hh & Hr). unfold Py.strip. by rewrite head_ok_lstrip. Qed.

Lemma stripped_nonempty s : stripped s -> Py.nonempty s = true.
Proof. intros (Hne & _). by destruct s. Qed.

Lemma stripped_app s t : stripped s -> stripped t -> stripped (s +:+ t).
Proof.
  intros (Hs & Hhs & _) (Ht & _ & Hrt). repeat split.
  - by destruct s.
  - by destruct s.
  - by apply rstrip_app.
Qed.

(** ** The normal form of the DOM *)

Lemma ends_with_text_cons prev x L :
  ends_with_text prev (x :: L) = ends_with_text (is_text x) L.
Proof.
  unfold ends_with_text. destruct L as [|y L]; [done|]. rewrite last_cons_cons.
  destruct (last (y :: L)) eqn:Hlast; [done|]. by apply last_None in Hlast.
Qed.

Lemma ends_with_text_snoc prev x L : ends_with_text prev (L ++ [x]) = is_text x.
Proof. unfold ends_with_text. by rewrite last_snoc. Qed.

Lemma tidy_children_app prev L1 L2 :
  tidy_children tidy prev (L1 ++ L2) <->
  tidy_children tidy prev L1 /\ tidy_children tidy (ends_with_text prev L1) L2.
Proof.
  revert prev. induction L1 as [|x L1 IH]; intros prev; cbn [app tidy_children].
  - unfold ends_with_text. cbn. tauto.
  - rewrite IH, ends_with_text_cons. tauto.
Qed.

Lemma tidy_children_snoc_text L data :
  tidy_children tidy false L -> ends_with_text false L = false -> stripped data ->
  tidy_children tidy false (L ++ [Text data]).
Proof.
  intros HL Hend Hdata. apply tidy_children_app. split; [done|].
  cbn [tidy_children child_ok]. by rewrite Hend.
Qed.

Lemma normalize_step_tidy L x :
  tidy_children tidy false L -> visited x ->
  tidy_children tidy false (normalize_step normalize L x).
Proof.
  intros HL Hx. destruct x as [cs|tag attrs cs|data|kind data]; cbn [normalize_step].
  - apply tidy_children_app. by split.
  - apply tidy_children_app. split; [done|]. split; [exact Hx|done].
  - destruct Hx as [-> | Hdata]; [done|]. rewrite (stripped_nonempty _ Hdata). cbn [negb].
    destruct (last L) as [y|] eqn:Hlast.
    + destruct y as [cs|tag attrs cs|data0|kind data0];
        try (apply tidy_children_snoc_text;
             [done|unfold ends_with_text; by rewrite Hlast|done]).
      apply last_Some in Hlast as [L' ->]. rewrite removelast_last.
      apply tidy_children_app in HL as [HL' [[Hprev Hdata0] _]].
      apply tidy_children_snoc_text; [done..|by apply stripped_app].
    + apply tidy_children_snoc_text; [done|unfold ends_with_text; by rewrite Hlast|done].
  - apply tidy_children_app. by split.
Qed.

Lemma fold_normalize_tidy cs L :
  tidy_children tidy false L -> Forall visited cs ->
  tidy_children tidy false (fold_left (normalize_step normalize) cs L).
Proof.
  revert L. induction cs as [|x cs IH]; intros L HL Hcs; cbn [fold_left]; [done|].
  inversion_clear Hcs as [|? ? Hx Hcs']. apply IH; [|done]. by apply normalize_step_tidy.
Qed.

Lemma visit_visited x : tidy (normalize (_remove_blanks x)) -> visited (visit x).
Proof.
  destruct x as [cs|tag attrs cs|data|kind data]; cbn [visit visited]; [done| |  |done].
  - intros Ht. exact Ht.
  - intros _. destruct (Py.nonempty data) eqn:Hd.
    + apply strip_empty_or_stripped.
    + left. by destruct data.
Qed.

Lemma children_normal_form cs :
  Forall (fun x => tidy (normalize (_remove_blanks x))) cs ->
  tidy_children tidy false (fold_left (normalize_step normalize) (map visit cs) []).
Proof.
  intros Hcs. apply fold_normalize_tidy; [done|]. apply Forall_map.
  eapply Forall_impl; [exact Hcs|]. intros x. apply visit_visited.
Qed.

(** What the normaliser produces is tidy. *)
Lemma normal_form_tidy x : tidy (normalize (_remove_blanks x)).
Proof.
  induction x as [cs IH|tag attrs cs IH|data|kind data] using Node_forall_ind; [| |done..].
  - exact (children_normal_form cs IH).
  - exact (children_normal_form cs IH).
Qed.

Lemma map_visit_fixed cs prev :
  tidy_children tidy prev cs ->
  Forall (fun x => tidy x -> _remove_blanks x = x /\ normalize x = x) cs ->
  map visit cs = cs.
Proof.
  revert prev. induction cs as [|x cs IH]; intros prev Ht Hcs; [done|].
  destruct Ht as [Hx Ht]. inversion_clear Hcs as [|? ? Hfix Hcs'].
  cbn [map]. rewrite (IH _ Ht Hcs'). f_equal.
  destruct x as [cs0|tag attrs cs0|data|kind data]; cbn [visit]; [done| |  |done].
  - by destruct (Hfix Hx).
  - destruct Hx as [_ Hdata].
    by rewrite (stripped_nonempty _ Hdata), (stripped_strip _ Hdata).
Qed.

Lemma fold_normalize_fixed cs L :
  tidy_children tidy (ends_with_text false L) cs ->
  Forall (fun x => tidy x -> _remove_blanks x = x /\ normalize x = x) cs ->
  fold_left (normalize_step normalize) cs L = L ++ cs.
Proof.
  revert L. induction cs as [|x cs IH]; intros L Ht Hcs; cbn [fold_left].
  { by rewrite app_nil_r. }
  destruct Ht as [Hx Ht]. inversion_clear Hcs as [|? ? Hfix Hcs'].
  assert (Hstep : normalize_step normalize L x = L ++ [x]).
  { destruct x as [cs0|tag attrs cs0|data|kind data]; cbn [normalize_step]; [done| |  |done].
    - by destruct (Hfix Hx) as [_ ->].
    - destruct Hx as [Hprev Hdata]. rewrite (stripped_nonempty _ Hdata). cbn [negb].
      unfold ends_with_text in Hprev. destruct (last L) as [y|]; [|done].
      by destruct y. }
  rewrite Hstep, IH; [by rewrite <- app_assoc| |done].
  by rewrite ends_with_text_snoc.
Qed.

(** The normaliser leaves a tidy node as it is. *)
Lemma tidy_fixed x : tidy x -> _remove_blanks x = x /\ normalize x = x.
Proof.
  induction x as [cs IH|tag attrs cs IH|data|kind data] using Node_forall_ind;
    intros Ht; [| |done..].
  - split.
    + change (Document (map visit cs) = Document cs). by rewrite (map_visit_fixed cs false).
    + change (Document (fold_left (normalize_step normalize) cs []) = Document cs).
      by rewrite fold_normalize_fixed.
  - split.
    + change (Element tag attrs (map visit cs) = Element tag attrs cs).
      by rewrite (map_visit_fixed cs false).
    + change (Element tag attrs (fold_left (normalize_step normalize) cs [])
              = Element tag attrs cs).
      by rewrite fold_normalize_fixed.
Qed.

Lemma tidy_child prev cs tag attrs cs0 :
  tidy_children tidy prev cs -> In (Element tag attrs cs0) cs ->
  tidy (Element tag attrs cs0).
Proof.
  revert prev. induction cs as [|y cs IH]; intros prev Ht Hin; [done|].
  destruct Ht as [Hy Ht]. destruct Hin as [-> | Hin]; [exact Hy|by eapply IH].
Qed.

Lemma documentElement_Some xml root :
  documentElement xml = Some root ->
  exists cs tag attrs cs0,
    xml = Document cs /\ root = Element tag attrs cs0 /\ In root cs.
Proof.
  intros Hroot. destruct xml as [cs| | |]; try discriminate.
  apply find_some in Hroot as [Hin Hel].
  destruct root as [|tag attrs cs0| |]; try discriminate.
  by exists cs, tag, attrs, cs0.
Qed.

Lemma documentElement_tidy xml root :
  tidy xml -> documentElement xml = Some root -> tidy (Document [root]).
Proof.
  intros Ht Hroot.
  apply documentElement_Some in Hroot as (cs & tag & attrs & cs0 & -> & -> & Hin).
  split; [|done]. exact (tidy_child false cs tag attrs cs0 Ht Hin).
Qed.

(** C7, as the code has it. On the DOM the normaliser is idempotent:
    stripping and normalising a tree that was stripped and normalised
    changes nothing. On text, normalising the output again gives the same
    text whenever the serialised document element parses back to that
    element. *)
Theorem normalize_svg_idempotent `{Env} :
  (forall xml,
     normalize (_remove_blanks (normalize (_remove_blanks xml)))
       = normalize (_remove_blanks xml)) /\
  (forall svg out,
     normalize_svg svg = Ok out ->
     (forall xml root,
        parseString svg = inr xml ->
        documentElement (normalize (_remove_blanks xml)) = Some root ->
        reparses root) ->
     normalize_svg out = Ok out).
Proof.
  assert (Hdom : forall xml, tidy xml -> normalize (_remove_blanks xml) = xml).
  { intros xml Ht. destruct (tidy_fixed xml Ht) as [-> ->]. done. }
  split.
  - intros xml. apply Hdom, normal_form_tidy.
  - intros svg out Hout Hre. unfold normalize_svg in Hout.
    destruct (parseString svg) as [detail|xml] eqn:Hparse; [discriminate|].
    destruct (documentElement (normalize (_remove_blanks xml))) as [root|] eqn:Hroot;
      [|discriminate].
    injection Hout as <-. specialize (Hre xml root eq_refl Hroot).
    unfold normalize_svg. rewrite Hre.
    rewrite (Hdom (Document [root])).
    + by apply documentElement_Some in Hroot as (cs & tag & attrs & cs0 & _ & -> & _).
    + eapply documentElement_tidy; [apply normal_form_tidy|exact Hroot].
Qed.

Lemma normalize_svg_idempotent_witness :
  @normalize_svg Demo.env "<svg> <text> build &amp; run </text> <a/> </svg>"
    = Ok "<svg><text>build &amp; run</text><a/></svg>" /\
  @normalize_svg Demo.env "<svg><text>build &amp; run</text><a/></svg>"
    = Ok "<svg><text>build &amp; run</text><a/></svg>".
Proof.
  split; [reflexivity|].
  destruct (@normalize_svg_idempotent Demo.env) as [_ Htext].
  apply (Htext "<svg> <text> build &amp; run </text> <a/> </svg>"); [reflexivity|].
  intros xml root Hparse Hroot. vm_compute in Hparse. injection Hparse as <-.
  vm_compute in Hroot. injection Hroot as <-. reflexivity.
Defined.

(** C7, as the specification words it, fails where the serialiser does not
    write what the parser reads: a carriage return in a text node, read from
    a character reference, is written as it is and read back as a line
    feed, so the second normalisation gives another text than the first. *)
Lemma normalize_svg_carriage_return_counterexample :
  let once := "<a>x" +:+ Demo.cr +:+ "y</a>" in
  let twice := "<a>x" +:+ Demo.lf +:+ "y</a>" in
  @normalize_svg Demo.env "<a>x&#13;y</a>" = Ok once /\
  @normalize_svg Demo.env once = Ok twice /\
  @normalize_svg Demo.env once <> Ok once.
Proof.
  cbv zeta. split; [reflexivity|]. split; [reflexivity|].
  vm_compute. discriminate.
Qed.

(** * Further properties *)

(** ** The events of the resolver *)

Lemma emitted_grown `{Env} {A} (m : M A) st evs :
  trace (final m st) = trace st ++ evs -> emitted m st = evs.
Proof. intros Ht. unfold emitted. rewrite Ht. apply drop_app_length. Qed.

Lemma fetch_remote_trace `{Env} url st :
  trace (final (_fetch_remote_image url) st) = trace st ++ [HttpGet url].
Proof.
  unfold final. destruct (requests_get url (world st)) as [detail|[resp w]] eqn:Hget.
  - unfold _fetch_remote_image, do_requests_get, bind, emit. cbn. by rewrite Hget.
  - by rewrite (fetch_remote_run url st resp w Hget).
Qed.

Lemma fetch_local_trace `{Env} path st :
  trace (final (_fetch_local_image_and_mime path) st) = trace st ++ [OpenFile path].
Proof.
  unfold final. destruct (open_read path (world st)) as [detail|[data w]] eqn:Hread.
  - unfold _fetch_local_image_and_mime, do_open_read, bind, emit. cbn. by rewrite Hread.
  - by rewrite (fetch_local_run path st data w Hread).
Qed.

Lemma embed_image_data_uri' `{Env} url st :
  Py.startswith "data:" url = true ->
  _embed_image url st = (Ok url, record (EmbedImage url) st).
Proof. intros Hdata. unfold _embed_image, bind, emit, ret. by rewrite Hdata. Qed.

Lemma embed_image_other_scheme `{Env} url st :
  Py.startswith "data:" url = false ->
  urlparse_scheme url <> "http" -> urlparse_scheme url <> "https" ->
  urlparse_scheme url <> EmptyString ->
  _embed_image url st =
    (Raise (ValueError (msg_unsupported_scheme (urlparse_scheme url))),
     record (EmbedImage url) st).
Proof.
  intros Hdata Hhttp Hhttps Hscheme. unfold _embed_image, bind, emit, raise. rewrite Hdata.
  apply String.eqb_neq in Hhttp, Hhttps. rewrite Hhttp, Hhttps. cbn [orb].
  by destruct (urlparse_scheme url).
Qed.

(** X1. A reference with a scheme other than [http] and [https] is refused
    with a [ValueError] that names the scheme, and neither the network nor
    the file system is touched: the run only records the call. *)
Theorem embed_image_unsupported_scheme `{Env} (url : string) (st : State) :
  Py.startswith "data:" url = false ->
  urlparse_scheme url <> "http" -> urlparse_scheme url <> "https" ->
  urlparse_scheme url <> EmptyString ->
  outcome (_embed_image url) st
    = Raise (ValueError (msg_unsupported_scheme (urlparse_scheme url))) /\
  world (final (_embed_image url) st) = world st /\
  emitted (_embed_image url) st = [EmbedImage url].
Proof.
  intros Hdata Hhttp Hhttps Hscheme. unfold outcome, emitted, final.
  rewrite (embed_image_other_scheme url st Hdata Hhttp Hhttps Hscheme). cbn.
  repeat split. apply drop_app_length.
Qed.

Lemma embed_image_unsupported_scheme_witness :
  outcome (@_embed_image Demo.env "ftp://example.com/logo.png") Demo.start
    = Raise (ValueError (msg_unsupported_scheme "ftp")) /\
  emitted (@_embed_image Demo.env "ftp://example.com/logo.png") Demo.start
    = [EmbedImage "ftp://example.com/logo.png"].
Proof.
  destruct (@embed_image_unsupported_scheme Demo.env "ftp://example.com/logo.png"
              Demo.start) as (Hout & _ & Hev); try done.
Defined.

(** X2. One call of the resolver makes at most one request or read, and the
    form of the reference decides which: none for a data URI, one request
    for an [http] or [https] reference, one read for a reference without
    scheme; this holds whether the call ends well or not. *)
Theorem embed_image_events `{Env} (url : string) (st : State) :
  (Py.startswith "data:" url = true ->
   emitted (_embed_image url) st = [EmbedImage url]) /\
  (is_remote url ->
   emitted (_embed_image url) st = [EmbedImage url; HttpGet url]) /\
  (is_local url ->
   emitted (_embed_image url) st = [EmbedImage url; OpenFile url]).
Proof.
  split; [|split].
  - intros Hdata. apply emitted_grown. unfold final.
    by rewrite (embed_image_data_uri' url st Hdata).
  - intros Hremote. apply emitted_grown. unfold final at 1.
    rewrite (embed_image_remote url st Hremote). cbn [snd].
    rewrite fetch_remote_trace. cbn. by rewrite <- app_assoc.
  - intros Hlocal. apply emitted_grown. unfold final at 1.
    rewrite (embed_image_local url st Hlocal). cbn [snd].
    rewrite fetch_local_trace. cbn. by rewrite <- app_assoc.
Qed.

Lemma embed_image_events_witness :
  emitted (@_embed_image Demo.env "data:image/png;base64,AAAA") Demo.start
    = [EmbedImage "data:image/png;base64,AAAA"] /\
  emitted (@_embed_image Demo.env "https://example.com/missing.png") Demo.start
    = [EmbedImage "https://example.com/missing.png";
       HttpGet "https://example.com/missing.png"] /\
  emitted (@_embed_image Demo.env "no-such-file.png") Demo.start
    = [EmbedImage "no-such-file.png"; OpenFile "no-such-file.png"].
Proof.
  split; [|split].
  - by apply (@embed_image_events Demo.env "data:image/png;base64,AAAA" Demo.start).
  - apply (@embed_image_events Demo.env "https://example.com/missing.png" Demo.start).
    split; [reflexivity|right; reflexivity].
  - apply (@embed_image_events Demo.env "no-such-file.png" Demo.start).
    by split.
Defined.

(** ** What the resolver returns *)

Lemma startswith_image_major mime :
  Py.startswith "image/" mime = true -> major_type mime = "image".
Proof.
  intros Hs. unfold major_type, Py.split1.
  repeat (destruct mime as [|? mime]; [discriminate|];
          cbn [Py.startswith] in Hs;
          match type of Hs with
          | (if Ascii.eqb ?a ?b then _ else _) = true =>
              destruct (Ascii.eqb_spec a b) as [<-|]; [|discriminate]
          end).
  reflexivity.
Qed.

Lemma fetch_remote_mime `{Env} url st image_data mime :
  outcome (_fetch_remote_image url) st = Ok (image_data, mime) ->
  Py.lower (major_type mime) = "image".
Proof.
  unfold outcome.
  destruct (requests_get url (world st)) as [detail|[resp w]] eqn:Hget.
  - unfold _fetch_remote_image, do_requests_get, bind, emit. cbn. by rewrite Hget.
  - rewrite (fetch_remote_run url st resp w Hget). cbn [fst].
    destruct (raise_for_status resp) as [[]|e]; [|done].
    destruct (headers_get "content-type" resp) as [[|c0 c]|]; [done| |done].
    destruct (Py.partition "/" (String c0 c)) as [[major minor]|] eqn:Hp; [|done].
    destruct (String.eqb (Py.lower major) "image") eqn:Hm; [|done]. intros [= _ <-].
    unfold major_type, Py.split1. rewrite Hp. by apply String.eqb_eq.
Qed.

Lemma fetch_local_mime `{Env} path st image_data mime :
  outcome (_fetch_local_image_and_mime path) st = Ok (image_data, mime) ->
  major_type mime = "image".
Proof.
  unfold outcome.
  destruct (open_read path (world st)) as [detail|[data w]] eqn:Hread.
  - unfold _fetch_local_image_and_mime, do_open_read, bind, emit. cbn. by rewrite Hread.
  - rewrite (fetch_local_run path st data w Hread). cbn [fst].
    destruct (filetype_guess data) as [sniffed|].
    + destruct (Py.startswith "image/" sniffed) eqn:Hs; [|done]. intros [= _ <-].
      by apply startswith_image_major.
    + destruct (Py.bytes_contains _ _); [by intros [= _ <-]|].
      destruct (mimetypes_guess_type path) as [[|g0 g]|]; [done| |done].
      destruct (String.eqb (major_type (String g0 g)) "image") eqn:Hm; [|done].
      intros [= _ <-]. by apply String.eqb_eq.
Qed.

Lemma embed_image_dispatch `{Env} url :
  Py.startswith "data:" url = false ->
  is_remote url \/ is_local url \/
  (urlparse_scheme url <> "http" /\ urlparse_scheme url <> "https" /\
   urlparse_scheme url <> EmptyString).
Proof.
  intros Hdata. unfold is_remote, is_local.
  destruct (String.eqb_spec (urlparse_scheme url) "http"); [by left; split; [|left]|].
  destruct (String.eqb_spec (urlparse_scheme url) "https"); [by left; split; [|right]|].
  destruct (String.eqb_spec (urlparse_scheme url) EmptyString); [by right; left|].
  by right; right.
Qed.

Lemma embed_image_ok_prefix `{Env} url data st st' :
  _embed_image url st = (Ok data, st') -> Py.startswith "data:" data = true.
Proof.
  intros Hrun. destruct (Py.startswith "data:" url) eqn:Hurl.
  - rewrite (embed_image_data_uri' url st Hurl) in Hrun. by injection Hrun as <- _.
  - destruct (embed_image_dispatch url Hurl) as [Hr|[Hl|(H1 & H2 & H3)]].
    + rewrite (embed_image_remote url st Hr) in Hrun. injection Hrun as Hout _.
      destruct (outcome _ _) as [[image_data mime]|e]; [|done].
      by injection Hout as <-.
    + rewrite (embed_image_local url st Hl) in Hrun. injection Hrun as Hout _.
      destruct (outcome _ _) as [[image_data mime]|e]; [|done].
      by injection Hout as <-.
    + by rewrite (embed_image_other_scheme url st Hurl H1 H2 H3) in Hrun.
Qed.

(** X3. What [_embed_image] returns is a data URI, and resolving it again
    gives it back unchanged, without any request or read. *)
Theorem embed_image_returns_data_uri `{Env} (url data : string) (st st' : State) :
  _embed_image url st = (Ok data, st') ->
  Py.startswith "data:" data = true /\
  forall st2, _embed_image data st2 = (Ok data, record (EmbedImage data) st2).
Proof.
  intros Hrun. pose proof (embed_image_ok_prefix url data st st' Hrun) as Hdata.
  split; [done|]. intros st2. by apply embed_image_data_uri'.
Qed.

Lemma embed_image_returns_data_uri_witness :
  exists data st',
    @_embed_image Demo.env "logo.txt" Demo.start = (Ok data, st') /\
    data = "data:image/png;base64,iVBORw0KGgoA" /\
    @_embed_image Demo.env data st' = (Ok data, record (EmbedImage data) st').
Proof.
  evaluate (@_embed_image Demo.env "logo.txt") Demo.start Hrun.
  match type of Hrun with
  | _ = (Ok ?data, ?st') =>
      exists data, st'; split; [exact Hrun|];
      destruct (@embed_image_returns_data_uri Demo.env "logo.txt" data Demo.start st' Hrun)
        as [_ Hagain]
  end.
  split; [reflexivity|apply Hagain].
Defined.

(** X4. A reference that is not a data URI is embedded only as an image:
    when [_embed_image] returns, the result is
    [data:<mime>;base64,<payload>] for some bytes and a MIME type whose
    major type, lower-cased, is [image]. *)
Theorem embed_image_mime_is_image `{Env} (url data : string) (st st' : State) :
  Py.startswith "data:" url = false ->
  _embed_image url st = (Ok data, st') ->
  exists image_data mime,
    data = "data:" +:+ mime +:+ ";base64," +:+ Base64.b64encode image_data /\
    Py.lower (major_type mime) = "image".
Proof.
  intros Hurl Hrun.
  destruct (embed_image_dispatch url Hurl) as [Hr|[Hl|(H1 & H2 & H3)]].
  - rewrite (embed_image_remote url st Hr) in Hrun. injection Hrun as Hout _.
    destruct (outcome _ _) as [[image_data mime]|e] eqn:Hf; [|done].
    injection Hout as <-. exists image_data, mime. split; [done|].
    by eapply fetch_remote_mime.
  - rewrite (embed_image_local url st Hl) in Hrun. injection Hrun as Hout _.
    destruct (outcome _ _) as [[image_data mime]|e] eqn:Hf; [|done].
    injection Hout as <-. exists image_data, mime. split; [done|].
    by rewrite (fetch_local_mime _ _ _ _ Hf).
  - by rewrite (embed_image_other_scheme url st Hurl H1 H2 H3) in Hrun.
Qed.

Lemma embed_image_mime_is_image_witness :
  exists image_data mime,
    "data:Image/PNG;base64,iVBORw0KGgoA"
      = "data:" +:+ mime +:+ ";base64," +:+ Base64.b64encode image_data /\
    Py.lower (major_type mime) = "image".
Proof.
  apply (@embed_image_mime_is_image Demo.env "https://example.com/upper.png"
           "data:Image/PNG;base64,iVBORw0KGgoA" Demo.start
           (@Build_State Demo.env 1%nat
              [EmbedImage "https://example.com/upper.png";
               HttpGet "https://example.com/upper.png"])); reflexivity.
Defined.

(** ** Which check speaks first *)

(** X5. The three checks are made in the order of the source and the first
    that fails decides the message: a conflict of links is reported whatever
    the images are, a centre image without a right element is reported
    before a missing centre colour, and in each case nothing else has
    happened. *)
Theorem badge_check_precedence `{Env} (req : BadgeRequest) (st : State) :
  (whole_link_conflict req = true ->
   badge req st = (Raise (ValueError msg_whole_link), st)) /\
  (whole_link_conflict req = false -> center_without_right req = true ->
   badge req st = (Raise (ValueError msg_center_right), st)) /\
  (whole_link_conflict req = false -> center_without_right req = false ->
   center_mismatch req = true ->
   badge req st = (Raise (ValueError msg_center_both), st)).
Proof.
  unfold badge, badge_fields, bind, lift, check_request,
    whole_link_conflict, center_without_right, center_mismatch, is_set.
  destruct (Py.truthy (left_link req)), (Py.truthy (right_link req)),
    (Py.truthy (center_link req)), (Py.truthy (whole_link req)),
    (Py.truthy (center_image req)), (Py.truthy (right_image req)),
    (Py.truthy (right_text req)), (Py.truthy (center_color req)); cbn;
    repeat split; intros; try discriminate; reflexivity.
Qed.

Lemma badge_check_precedence_witness :
  @badge Demo.env Demo.two_links Demo.start
    = (Raise (ValueError msg_whole_link), Demo.start) /\
  @badge Demo.env Demo.empty_center_color Demo.start
    = (Raise (ValueError msg_center_both), Demo.start).
Proof.
  split.
  - by apply (@badge_check_precedence Demo.env Demo.two_links Demo.start).
  - by apply (@badge_check_precedence Demo.env Demo.empty_center_color Demo.start).
Defined.

(** ** Colours, again *)

Lemma color_values_not_names name css :
  _NAME_TO_COLOR !! name = Some css -> _NAME_TO_COLOR !! css = None.
Proof.
  intros Hin. unfold _NAME_TO_COLOR in Hin. apply elem_of_list_to_map_2 in Hin.
  repeat (apply elem_of_cons in Hin as [[= -> ->]|Hin]; [reflexivity|]).
  by apply elem_of_nil in Hin.
Qed.

(** X6. Resolving a colour twice is resolving it once: no CSS value of the
    table is itself a name of the table, so a resolved colour can be handed
    to [badge] again and comes through unchanged. *)
Theorem resolve_color_idempotent (name : string) :
  resolve_color (resolve_color name) = resolve_color name.
Proof.
  unfold resolve_color at 2. destruct (_NAME_TO_COLOR !! name) as [css|] eqn:Hin; cbn.
  - unfold resolve_color. by rewrite (color_values_not_names name css Hin), Hin.
  - unfold resolve_color. by rewrite Hin.
Qed.

(** ** The calls [badge] makes *)

Section Accounts.
Context `{Env}.

Lemma accounts_ret {A} (a : A) : accounts [] (ret a).
Proof.
  intros st r st' [= <- <-]. exists []. rewrite app_nil_r. cbn. by repeat split.
Qed.

Lemma accounts_lift {A} (r : result A) : accounts [] (lift r).
Proof.
  intros st r' st' [= <- <-]. exists []. rewrite app_nil_r. cbn. by repeat split.
Qed.

Lemma accounts_bind {A B} w1 w2 (m : M A) (k : A -> M B) :
  accounts w1 m -> (forall a, accounts w2 (k a)) -> accounts (w1 ++ w2) (bind m k).
Proof.
  intros Hm Hk st r st'. unfold bind.
  destruct (m st) as [[a|e] s1] eqn:Em;
    destruct (Hm _ _ _ Em) as (evs1 & Ht1 & Hp1 & Hok1 & Hio1).
  - intros Ek. destruct (Hk a _ _ _ Ek) as (evs2 & Ht2 & Hp2 & Hok2 & Hio2).
    exists (evs1 ++ evs2). unfold resolver_calls in *.
    rewrite omap_app, List.filter_app, !length_app, (Hok1 a eq_refl).
    rewrite (Hok1 a eq_refl) in Hio1. repeat split.
    + by rewrite Ht2, Ht1, app_assoc.
    + by apply prefix_app.
    + intros b Hb. by rewrite (Hok2 b Hb).
    + lia.
  - intros [= <- <-]. exists evs1. repeat split; [done| |done|done].
    by apply prefix_app_r.
Qed.

Lemma embed_image_emitted url st :
  exists io,
    trace (final (_embed_image url) st) = trace st ++ EmbedImage url :: io /\
    (io = [] \/ io = [HttpGet url] \/ io = [OpenFile url]).
Proof.
  unfold final. destruct (Py.startswith "data:" url) eqn:Hdata.
  - exists []. rewrite (embed_image_data_uri' url st Hdata). by split; [|left].
  - destruct (embed_image_dispatch url Hdata) as [Hr|[Hl|(H1 & H2 & H3)]].
    + exists [HttpGet url]. rewrite (embed_image_remote url st Hr). cbn [snd].
      rewrite fetch_remote_trace. cbn. rewrite <- app_assoc. by split; [|right; left].
    + exists [OpenFile url]. rewrite (embed_image_local url st Hl). cbn [snd].
      rewrite fetch_local_trace. cbn. rewrite <- app_assoc. by split; [|right; right].
    + exists []. rewrite (embed_image_other_scheme url st Hdata H1 H2 H3).
      by split; [|left].
Qed.

Lemma accounts_embed_image url : accounts [url] (_embed_image url).
Proof.
  intros st r st' Hrun. destruct (embed_image_emitted url st) as (io & Ht & Hio).
  unfold final in Ht. rewrite Hrun in Ht. exists (EmbedImage url :: io).
  split; [exact Ht|].
  destruct Hio as [-> | [-> | ->]]; cbn; repeat split; auto.
Qed.

Lemma accounts_embed_if image embed : accounts (wanted image embed) (embed_if image embed).
Proof.
  unfold embed_if, wanted. destruct image as [url|]; [|apply accounts_ret].
  destruct (Py.nonempty url && embed); [|apply accounts_ret].
  change [url] with ([url] ++ []).
  apply accounts_bind; [apply accounts_embed_image|]. intros data. apply accounts_ret.
Qed.

Lemma accounts_badge req : accounts (wanted_calls req) (badge req).
Proof.
  unfold badge, badge_fields, wanted_calls.
  rewrite <- (app_nil_r (wanted (center_image req) _)).
  rewrite <- (app_nil_r (_ ++ _ ++ _ ++ [])).
  apply accounts_bind; [|intros; apply accounts_lift].
  change (wanted (logo req) (embed_logo req) ++ _) with
    ([] ++ wanted (logo req) (embed_logo req)
        ++ wanted (right_image req) (embed_right_image req)
        ++ wanted (center_image req) (embed_center_image req) ++ []).
  apply accounts_bind; [apply accounts_lift|]. intros _.
  apply accounts_bind; [apply accounts_embed_if|]. intros l.
  apply accounts_bind; [apply accounts_embed_if|]. intros ri.
  apply accounts_bind; [apply accounts_embed_if|]. intros ci.
  apply accounts_ret.
Qed.

End Accounts.

Lemma wanted_length image embed : (length (wanted image embed) <= 1)%nat.
Proof. unfold wanted. repeat case_match; cbn; lia. Qed.

(** X7. [badge] resolves the images in the order logo, right image, centre
    image, each at most once and only when it is set and its flag is on: a
    run calls the resolver on a prefix of that list, on all of it when
    [badge] returns, never more than three times, and makes at most one
    request or read for each call. *)
Theorem badge_resolver_calls `{Env} (req : BadgeRequest) (st : State) :
  let evs := emitted (badge req) st in
  resolver_calls evs `prefix_of` wanted_calls req /\
  (forall svg, outcome (badge req) st = Ok svg -> resolver_calls evs = wanted_calls req) /\
  (length (List.filter is_io evs) <= length (resolver_calls evs))%nat /\
  (length (wanted_calls req) <= 3)%nat.
Proof.
  intros evs. unfold evs, emitted, outcome, final.
  destruct (badge req st) as [r st'] eqn:Hrun.
  destruct (accounts_badge req st r st' Hrun) as (evs' & Ht & Hp & Hok & Hio).
  cbn [fst snd]. rewrite Ht, drop_app_length. repeat split; [done| |done|].
  - intros svg ->. by apply (Hok svg).
  - unfold wanted_calls. rewrite !length_app.
    pose proof (wanted_length (logo req) (embed_logo req)).
    pose proof (wanted_length (right_image req) (embed_right_image req)).
    pose proof (wanted_length (center_image req) (embed_center_image req)). lia.
Qed.

Lemma badge_resolver_calls_witness :
  resolver_calls (emitted (@badge Demo.env Demo.three_images) Demo.start)
    = ["logo.png"; "https://example.com/missing.png"] /\
  wanted_calls Demo.three_images
    = ["logo.png"; "https://example.com/missing.png"; "icon.dat"] /\
  resolver_calls (emitted (@badge Demo.env Demo.all_embedded) Demo.start)
    = ["logo.txt"; "http://example.com/logo.png"; "data:image/gif;base64,R0lGODdh"] /\
  List.filter is_io (emitted (@badge Demo.env Demo.all_embedded) Demo.start)
    = [OpenFile "logo.txt"; HttpGet "http://example.com/logo.png"].
Proof.
  split; [vm_compute; reflexivity|]. split; [vm_compute; reflexivity|].
  split; [|vm_compute; reflexivity].
  destruct (@badge_resolver_calls Demo.env Demo.all_embedded Demo.start)
    as (_ & Hall & _).
  assert (Hout : exists svg, outcome (@badge Demo.env Demo.all_embedded) Demo.start = Ok svg)
    by (eexists; vm_compute; reflexivity).
  destruct Hout as [svg Hout]. rewrite (Hall svg Hout).
  vm_compute. reflexivity.
Defined.

(** ** When the resolver fails, and when it does not *)

Lemma embed_if_raise `{Env} image embed st e st' :
  embed_if image embed st = (Raise e, st') ->
  exists url, wanted image embed = [url] /\ _embed_image url st = (Raise e, st').
Proof.
  unfold embed_if, wanted. destruct image as [url|]; [|discriminate].
  destruct (Py.nonempty url && embed); [|discriminate]. unfold bind.
  destruct (_embed_image url st) as [[data|e'] s1] eqn:Hrun; [discriminate|].
  intros [= <- <-]. by exists url.
Qed.

(** X8. An exception of the resolver comes out of [badge] as it is: when a
    valid request fails before the template is rendered, the exception is
    the one [_embed_image] raised on one of the wanted references, and the
    run stops in the state that call left, so the images after it are not
    resolved. *)
Theorem badge_resolver_failure `{Env} (req : BadgeRequest) (st st' : State) (e : exn) :
  invalid_request req = false ->
  badge_fields req st = (Raise e, st') ->
  badge req st = (Raise e, st') /\
  exists url st0, url ∈ wanted_calls req /\ _embed_image url st0 = (Raise e, st').
Proof.
  intros Hreq Hrun. split; [unfold badge, bind; by rewrite Hrun|].
  pose proof (check_request_spec req) as Hchk.
  unfold badge_fields, bind, lift in Hrun.
  destruct (check_request req) as [[]|e0]; [|destruct Hchk; congruence].
  unfold wanted_calls.
  destruct (embed_if (logo req) _ st) as [[l|e1] s1] eqn:H1.
  2:{ injection Hrun as <- <-. apply embed_if_raise in H1 as (url & Hw & Hfail).
      exists url, st. rewrite Hw. split; [set_solver|done]. }
  destruct (embed_if (right_image req) _ s1) as [[ri|e2] s2] eqn:H2.
  2:{ injection Hrun as <- <-. apply embed_if_raise in H2 as (url & Hw & Hfail).
      exists url, s1. rewrite Hw. split; [set_solver|done]. }
  destruct (embed_if (center_image req) _ s2) as [[ci|e3] s3] eqn:H3.
  2:{ injection Hrun as <- <-. apply embed_if_raise in H3 as (url & Hw & Hfail).
      exists url, s2. rewrite Hw. split; [set_solver|done]. }
  discriminate.
Qed.

Lemma badge_resolver_failure_witness :
  exists st',
    @badge Demo.env Demo.three_images Demo.start = (Raise (HTTPError 404), st') /\
    trace st' = [EmbedImage "logo.png"; OpenFile "logo.png";
                 EmbedImage "https://example.com/missing.png";
                 HttpGet "https://example.com/missing.png"].
Proof.
  evaluate (@badge_fields Demo.env Demo.three_images) Demo.start Hrun.
  match type of Hrun with
  | _ = (Raise ?e, ?st') =>
      exists st';
      destruct (@badge_resolver_failure Demo.env Demo.three_images Demo.start st' e
                  eq_refl Hrun) as [Hbadge _]
  end.
  split; [exact Hbadge|reflexivity].
Defined.





(** ** What the normaliser keeps *)




Lemma elements_children (f : Node -> Node) cs :
  Forall (fun x => elements_of (f x) = elements_of x) cs ->
  flat_map elements_of (map f cs) = flat_map elements_of cs.
Proof. induction 1 as [|x cs Hx _ IH]; cbn; [done|]. by rewrite Hx, IH. Qed.

Lemma elements_remove_blanks x : elements_of (_remove_blanks x) = elements_of x.
Proof.
  induction x as [cs IH|tag attrs cs IH|data|kind data] using Node_forall_ind; [| |done..].
  - change (flat_map elements_of (map visit cs) = flat_map elements_of cs).
    apply elements_children. eapply Forall_impl; [exact IH|].
    intros [| | |]; cbn [visit]; try done. intros _. by case_match.
  - change ((tag, attrs) :: flat_map elements_of (map visit cs)
            = (tag, attrs) :: flat_map elements_of cs). f_equal.
    apply elements_children. eapply Forall_impl; [exact IH|].
    intros [| | |]; cbn [visit]; try done. intros _. by case_match.
Qed.

Lemma elements_normalize_step L x :
  elements_of (normalize x) = elements_of x ->
  flat_map elements_of (normalize_step normalize L x)
    = flat_map elements_of L ++ elements_of x.
Proof.
  intros Hx. destruct x as [cs|tag attrs cs|data|kind data]; cbn [normalize_step].
  - by rewrite flat_map_app; cbn; rewrite app_nil_r.
  - rewrite flat_map_app. cbn [flat_map]. by rewrite Hx, app_nil_r.
  - cbn [elements_of]. rewrite app_nil_r. destruct (Py.nonempty data); cbn [negb]; [|done].
    destruct (last L) as [y|] eqn:Hlast.
    + destruct y as [cs|tag attrs cs|data0|kind data0];
        try (rewrite flat_map_app; cbn; by rewrite app_nil_r).
      apply last_Some in Hlast as [L' ->]. rewrite removelast_last, !flat_map_app. done.
    + rewrite flat_map_app. cbn. by rewrite app_nil_r.
  - by rewrite flat_map_app; cbn; rewrite app_nil_r.
Qed.

Lemma elements_fold_normalize cs L :
  Forall (fun x => elements_of (normalize x) = elements_of x) cs ->
  flat_map elements_of (fold_left (normalize_step normalize) cs L)
    = flat_map elements_of L ++ flat_map elements_of cs.
Proof.
  intros Hcs. revert L. induction Hcs as [|x cs Hx _ IH]; intros L; cbn [fold_left flat_map].
  - by rewrite app_nil_r.
  - by rewrite IH, elements_normalize_step, <- app_assoc.
Qed.

Lemma elements_normalize x : elements_of (normalize x) = elements_of x.
Proof.
  induction x as [cs IH|tag attrs cs IH|data|kind data] using Node_forall_ind; [| |done..].
  - change (flat_map elements_of (fold_left (normalize_step normalize) cs [])
            = flat_map elements_of cs). by rewrite elements_fold_normalize.
  - change ((tag, attrs) :: flat_map elements_of (fold_left (normalize_step normalize) cs [])
            = (tag, attrs) :: flat_map elements_of cs). by rewrite elements_fold_normalize.
Qed.

(** X10. The normaliser touches text only: the elements of the tree, with
    their names and attributes and in document order, are after
    [_remove_blanks] and [normalize] what they were before. *)
Theorem normalizer_keeps_elements (xml : Node) :
  elements_of (_remove_blanks xml) = elements_of xml /\
  elements_of (normalize (_remove_blanks xml)) = elements_of xml.
Proof.
  split; [apply elements_remove_blanks|].
  by rewrite elements_normalize, elements_remove_blanks.
Qed.













(** ** The shape of the normalised tree *)










(** ** [_remove_blanks] on its own *)






